(** * Milestone verification agent: the verdict-combination pipeline

    A shallow embedding of [backend/src/agents/milestone_verifier.py]
    (class [MilestoneVerifierAgent]) and the properties of its scoring,
    fallback and error-handling logic.

    Python floats are IEEE 754 binary64 numbers; they are modelled by
    Rocq's primitive floats, whose operations are the same binary64
    operations (round to nearest, ties to even).  Dictionaries are finite
    maps from strings to dynamically typed values, exceptions are an
    explicit error result, and the two outbound services, the transport
    used to answer the sender and the clock are fields of an environment
    record.  The coroutines are awaited one after the other, so they are
    plain sequential calls here.  Logging has no influence on any result
    and is left out. *)

From Stdlib Require Import ZArith Floats String Ascii Bool Lia Setoid.
From stdpp Require Import base option list gmap strings pretty.

Set Warnings "-inexact-float,-register-all".

Open Scope string_scope.

(** ** Python values, exceptions and the built-in operations the agent uses *)

Module Py.

(** The values that can reach the agent: the JSON values decoded from the
    services' responses and from the inbound message.  A [str] is a
    sequence of characters, one [ascii] per character. *)
Inductive value :=
  | VNone
  | VBool (b : bool)
  | VInt (z : Z)
  | VFloat (f : float)
  | VStr (s : string)
  | VList (l : list value)
  | VDict (d : gmap string value).

Abbreviation dict := (gmap string value).

(** An exception derived from [Exception], the ones every [except] clause
    of the agent catches: its class name and [str(e)]. *)
Record exn := Exn { exn_class : string; exn_msg : string }.

(** The result of a call that may raise. *)
Inductive outcome (A : Type) :=
  | Ok (a : A)
  | Raise (e : exn).
Arguments Ok {A} a.
Arguments Raise {A} e.

(** Sequencing: the first exception raised ends the computation. *)
Definition bind {A B} (m : outcome A) (k : A -> outcome B) : outcome B :=
  match m with
  | Ok a => k a
  | Raise e => Raise e
  end.

Declare Scope py_scope.
Delimit Scope py_scope with py.
Notation "x <- m ;; k" := (bind m (fun x => k))
  (at level 100, m at next level, right associativity) : py_scope.
Open Scope py_scope.

(** [try: body / except Exception as e: handler e]. *)
Definition try_except {A} (body : outcome A) (handler : exn -> outcome A) : outcome A :=
  match body with
  | Ok a => Ok a
  | Raise e => handler e
  end.

Definition type_name (v : value) : string :=
  match v with
  | VNone => "NoneType"
  | VBool _ => "bool"
  | VInt _ => "int"
  | VFloat _ => "float"
  | VStr _ => "str"
  | VList _ => "list"
  | VDict _ => "dict"
  end.

Definition TypeError (msg : string) : exn := Exn "TypeError" msg.
Definition AttributeError (msg : string) : exn := Exn "AttributeError" msg.
Definition OverflowError (msg : string) : exn := Exn "OverflowError" msg.
Definition ValueError (msg : string) : exn := Exn "ValueError" msg.

(** [d.get(key, default)] on a dictionary. *)
Definition dict_get (d : dict) (key : string) (default : value) : value :=
  match d !! key with
  | Some v => v
  | None => default
  end.

(** [v.get(key, default)] on an arbitrary value: only a dictionary has the
    method. *)
Definition get (v : value) (key : string) (default : value) : outcome value :=
  match v with
  | VDict d => Ok (dict_get d key default)
  | _ => Raise (AttributeError ("'" ++ type_name v ++ "' object has no attribute 'get'"))
  end.

(** Truth value of an object, as tested by [if], [and], [or], [not]. *)
Definition truthy (v : value) : bool :=
  match v with
  | VNone => false
  | VBool b => b
  | VInt z => negb (z =? 0)%Z
  | VFloat f => negb (f =? 0)%float
  | VStr s => negb (String.eqb s "")
  | VList l => match l with [] => false | _ => true end
  | VDict d => negb (bool_decide (size d = 0%nat))
  end.

(** [len(v)]. *)
Definition len (v : value) : outcome nat :=
  match v with
  | VStr s => Ok (String.length s)
  | VList l => Ok (List.length l)
  | VDict d => Ok (size d)
  | _ => Raise (TypeError ("object of type '" ++ type_name v ++ "' has no len()"))
  end.

(** Conversion of an [int] to a [float]: the nearest binary64 number, or
    [OverflowError] when that is out of range. *)
Definition float_of_int (z : Z) : outcome float :=
  match binary_normalize prec emax z 0 false with
  | S754_infinity _ => Raise (OverflowError "int too large to convert to float")
  | sf => Ok (SF2Prim sf)
  end.

Definition float_of_bool (b : bool) : float := if b then 1%float else 0%float.

(** [v * c] for a float [c]. *)
Definition mul_float (v : value) (c : float) : outcome float :=
  match v with
  | VFloat f => Ok (f * c)%float
  | VBool b => Ok (float_of_bool b * c)%float
  | VInt z => f <- float_of_int z ;; Ok (f * c)%float
  | VStr _ | VList _ =>
      Raise (TypeError "can't multiply sequence by non-int of type 'float'")
  | VNone | VDict _ =>
      Raise (TypeError ("unsupported operand type(s) for *: '" ++ type_name v ++ "' and 'float'"))
  end.

(** Exact comparison of an integer with a float, as Python compares an
    [int] with a [float]; [None] when the float is a NaN. *)
Definition cmp_int_float (z : Z) (c : float) : option comparison :=
  match Prim2SF c with
  | S754_nan => None
  | S754_infinity s => Some (if s then Gt else Lt)
  | S754_zero _ => Some (z ?= 0)%Z
  | S754_finite s m e =>
      let v := cond_Zopp s (Zpos m) in
      Some (if (0 <=? e)%Z then (z ?= v * 2 ^ e)%Z else (z * 2 ^ (- e) ?= v)%Z)
  end.

(** [v > c] for a float [c]. *)
Definition gt_float (v : value) (c : float) : outcome bool :=
  match v with
  | VFloat f => Ok (c <? f)%float
  | VBool b => Ok (match cmp_int_float (Z.b2z b) c with Some Gt => true | _ => false end)
  | VInt z => Ok (match cmp_int_float z c with Some Gt => true | _ => false end)
  | _ => Raise (TypeError ("'>' not supported between instances of '"
                             ++ type_name v ++ "' and 'float'"))
  end.

(** [x >= y] on floats. *)
Definition float_ge (x y : float) : bool := (y <=? x)%float.

(** [min(x, y)] on floats: the first argument unless the second is smaller. *)
Definition float_min (x y : float) : float := if (y <? x)%float then y else x.

(** The quotient of [m] by [2 ^ k] rounded to the nearest integer, ties to
    the even one. *)
Definition rne_div (m k : Z) : Z :=
  let q := (m / 2 ^ k)%Z in
  let r := (m mod 2 ^ k)%Z in
  match (2 * r ?= 2 ^ k)%Z with
  | Lt => q
  | Gt => (q + 1)%Z
  | Eq => if Z.even q then q else (q + 1)%Z
  end.

Definition two_digits (n : Z) : string :=
  (if (n <? 10)%Z then "0" else "") ++ pretty n.

(** [format(f, '.2f')] for a float: the exact binary value rounded to two
    decimals, ties to even. *)
Definition float_format_2f (f : float) : string :=
  match Prim2SF f with
  | S754_nan => "nan"
  | S754_infinity s => (if s then "-" else "") ++ "inf"
  | S754_zero s => (if s then "-" else "") ++ "0.00"
  | S754_finite s m e =>
      let n := if (0 <=? e)%Z then (Zpos m * 100 * 2 ^ e)%Z
               else rne_div (Zpos m * 100) (- e) in
      (if s then "-" else "") ++ pretty (n / 100)%Z ++ "." ++ two_digits (n mod 100)
  end.

(** [f"{v:.2f}"]. *)
Definition format_2f (v : value) : outcome string :=
  match v with
  | VFloat f => Ok (float_format_2f f)
  | VBool b => Ok (float_format_2f (float_of_bool b))
  | VInt z => f <- float_of_int z ;; Ok (float_format_2f f)
  | VStr _ => Raise (ValueError "Unknown format code 'f' for object of type 'str'")
  | _ => Raise (TypeError ("unsupported format string passed to "
                             ++ type_name v ++ ".__format__"))
  end.

(** [str(v)], as an f-string interpolates a value.  The text of a float,
    a list or a dictionary is produced by the interpreter's [repr], which
    is a parameter [repr] of the model. *)
Definition str (repr : value -> string) (v : value) : string :=
  match v with
  | VStr s => s
  | VNone => "None"
  | VBool true => "True"
  | VBool false => "False"
  | VInt z => pretty z
  | _ => repr v
  end.

End Py.

Import Py.
Open Scope py_scope.

(** ** The agent object and its environment *)

(** The attributes of a [MilestoneVerifierAgent] that the pipeline reads.
    [metta_client_query query context] is the call
    [self.metta_client.query(query=..., context=...)] to the knowledge
    service: it returns the decoded response or raises. *)
Record MilestoneVerifierAgent := {
  agent_name : string;
  confidence_threshold : float;
  max_retry_attempts : Z;
  metta_client_query : dict -> string -> outcome value
}.

(** What the process sees of the outside world.
    [requests_post_json url json headers timeout] stands for
    [requests.post(...)], [raise_for_status()] and [response.json()] in
    sequence; [ctx_send sender message] is the transport's answer to
    [ctx.send]; [utcnow_isoformat n] is the text of the [n]-th reading of
    the clock; [repr] is the interpreter's [repr]. *)
Record Env := {
  getenv : string -> option string;
  requests_post_json : string -> dict -> dict -> Z -> outcome value;
  ctx_send : string -> dict -> outcome unit;
  utcnow_isoformat : nat -> string;
  repr : value -> string
}.

(** The observable state of one handler run: the messages delivered so
    far, oldest first, and the number of clock readings made. *)
Record io_state := IoState {
  outbox : list (string * dict);
  clock : nat
}.

(** Computations that may raise and that send messages and read the clock. *)
Definition io (A : Type) : Type := io_state -> outcome A * io_state.

Definition io_bind {A B} (m : io A) (k : A -> io B) : io B := fun st =>
  match m st with
  | (Ok a, st') => k a st'
  | (Raise e, st') => (Raise e, st')
  end.

Declare Scope io_scope.
Delimit Scope io_scope with io.
Notation "x <- m ;; k" := (io_bind m (fun x => k))
  (at level 100, m at next level, right associativity) : io_scope.

Definition io_lift {A} (m : outcome A) : io A := fun st => (m, st).

Definition io_try_except {A} (body : io A) (handler : exn -> io A) : io A := fun st =>
  match body st with
  | (Ok a, st') => (Ok a, st')
  | (Raise e, st') => handler e st'
  end.

Section Agent.

Context (self : MilestoneVerifierAgent) (env : Env).

(** [datetime.utcnow().isoformat()]. *)
Definition utcnow_iso : io string := fun st =>
  (Ok (utcnow_isoformat env (clock st)),
   {| outbox := outbox st; clock := S (clock st) |}).

(** [await ctx.send(sender, message)]: the message is delivered unless the
    transport raises. *)
Definition send (sender : string) (message : dict) : io unit := fun st =>
  match ctx_send env sender message with
  | Ok _ => (Ok tt, {| outbox := outbox st ++ [(sender, message)]; clock := clock st |})
  | Raise e => (Raise e, st)
  end.

(** [get_mock_agent_response(self, request)]. *)
Definition get_mock_agent_response (request : dict) : outcome dict :=
  description <- get (dict_get request "context" (VDict ∅)) "description" (VStr "") ;;
  evidence_analysis <- get (dict_get request "context" (VDict ∅)) "evidence_analysis" (VDict ∅) ;;
  let base_confidence := 0.5%float in
  long_description <-
    (if truthy description then (n <- len description ;; Ok (50 <? n)%nat) else Ok false) ;;
  let base_confidence :=
    if long_description then (base_confidence + 0.2)%float else base_confidence in
  relevance <- get evidence_analysis "relevance" (VFloat 0.5) ;;
  relevant <- gt_float relevance 0.7 ;;
  let base_confidence :=
    if relevant then (base_confidence + 0.2)%float else base_confidence in
  completeness <- get evidence_analysis "completeness" (VFloat 0.5) ;;
  complete <- gt_float completeness 0.7 ;;
  let base_confidence :=
    if complete then (base_confidence + 0.1)%float else base_confidence in
  let confidence := float_min base_confidence 1.0 in
  let approved := float_ge confidence (confidence_threshold self) in
  n <- len description ;;
  relevance <- get evidence_analysis "relevance" (VFloat 0.5) ;;
  relevance_2f <- format_2f relevance ;;
  Ok ({[ "approved" := VBool approved;
         "confidence" := VFloat confidence;
         "reasoning" := VStr ("Mock agent analysis: Description length=" ++ pretty n
                                ++ ", Evidence relevance=" ++ relevance_2f);
         "recommendations" :=
           VList [ VStr "Consider providing more detailed evidence";
                   VStr "Ensure milestone deliverables are clearly defined" ] ]} : dict).

(** [call_asi_one_chat(self, request)].  The three [except] clauses
    (HTTP error, timeout, any other exception) all return the mock
    response, so one handler stands for them. *)
Definition call_asi_one_chat (request : dict) : outcome value :=
  try_except
    (let asi_endpoint := default "https://api.asi.one" (getenv env "ASI_ENDPOINT") in
     match getenv env "ASI_API_KEY" with
     | None | Some "" => (r <- get_mock_agent_response request ;; Ok (VDict r))
     | Some api_key =>
         let headers : dict :=
           {[ "Authorization" := VStr ("Bearer " ++ api_key);
              "Content-Type" := VStr "application/json";
              "X-API-Key" := VStr api_key;
              "User-Agent" := VStr "AutoCrowd-MilestoneVerifier/1.0" ]} in
         requests_post_json env (asi_endpoint ++ "/chat/agent") request headers 120
     end)
    (fun _ => r <- get_mock_agent_response request ;; Ok (VDict r)).

(** The query [analyze_evidence] sends to the knowledge service. *)
Definition evidence_query (evidence_hash evidence_url description : value) : dict :=
  {[ "evidence_hash" := evidence_hash;
     "evidence_url" := evidence_url;
     "description" := description;
     "analysis_type" := VStr "milestone_verification" ]}.

(** [analyze_evidence(self, evidence_hash, evidence_url, description)]. *)
Definition analyze_evidence (evidence_hash evidence_url description : value) : outcome dict :=
  try_except
    (let query := evidence_query evidence_hash evidence_url description in
     response <- metta_client_query self query "milestone_verification" ;;
     relevance <- get response "relevance" (VFloat 0.5) ;;
     completeness <- get response "completeness" (VFloat 0.5) ;;
     authenticity <- get response "authenticity" (VFloat 0.5) ;;
     reasoning <- get response "reasoning" (VStr "Evidence analysis completed") ;;
     metadata <- get response "metadata" (VDict ∅) ;;
     Ok ({[ "relevance" := relevance;
            "completeness" := completeness;
            "authenticity" := authenticity;
            "reasoning" := reasoning;
            "metadata" := metadata ]} : dict))
    (fun e =>
       Ok ({[ "relevance" := VFloat 0.5;
              "completeness" := VFloat 0.5;
              "authenticity" := VFloat 0.5;
              "reasoning" := VStr ("Evidence analysis failed: " ++ exn_msg e);
              "metadata" := VDict ∅ ]} : dict)).

(** The request [get_agent_verdict] prepares for the verdict service. *)
Definition agent_request (milestone_id campaign_address : value)
    (evidence_analysis : dict) (description : value) : dict :=
  {[ "task" := VStr "milestone_verification";
     "context" := VDict {[ "milestone_id" := milestone_id;
                           "campaign_address" := campaign_address;
                           "description" := description;
                           "evidence_analysis" := VDict evidence_analysis ]};
     "parameters" := VDict {[ "confidence_threshold" := VFloat (confidence_threshold self);
                              "analysis_depth" := VStr "comprehensive" ]} ]}.

(** [get_agent_verdict(self, milestone_id, campaign_address,
    evidence_analysis, description)]. *)
Definition get_agent_verdict (milestone_id campaign_address : value)
    (evidence_analysis : dict) (description : value) : outcome dict :=
  try_except
    (let agent_request :=
       agent_request milestone_id campaign_address evidence_analysis description in
     response <- call_asi_one_chat agent_request ;;
     approved <- get response "approved" (VBool false) ;;
     confidence <- get response "confidence" (VFloat 0.5) ;;
     reasoning <- get response "reasoning" (VStr "Agent analysis completed") ;;
     recommendations <- get response "recommendations" (VList []) ;;
     Ok ({[ "approved" := approved;
            "confidence" := confidence;
            "reasoning" := reasoning;
            "recommendations" := recommendations ]} : dict))
    (fun e =>
       Ok ({[ "approved" := VBool false;
              "confidence" := VFloat 0.0;
              "reasoning" := VStr ("Agent verdict failed: " ++ exn_msg e);
              "recommendations" := VList [] ]} : dict)).

(** The weighted evidence score and the combined confidence of
    [combine_results], on the numbers it reads from its two arguments. *)
Definition evidence_score_of (relevance completeness authenticity : float) : float :=
  (relevance * 0.4 + completeness * 0.3 + authenticity * 0.3)%float.

Definition combined_confidence_of (evidence_score agent_confidence : float) : float :=
  let evidence_weight := 0.4%float in
  let agent_weight := 0.6%float in
  (evidence_score * evidence_weight + agent_confidence * agent_weight)%float.

(** The three-way decision of [combine_results]. *)
Definition verdict_of (threshold combined_confidence : float) (approved : bool) : string :=
  if float_ge combined_confidence threshold && approved then "approved"
  else if (combined_confidence <? 1 - threshold)%float || negb approved then "rejected"
  else "uncertain".

(** [combine_results(self, evidence_analysis, agent_verdict)]. *)
Definition combine_results (evidence_analysis agent_verdict : dict) : outcome dict :=
  let evidence_weight := 0.4%float in
  let agent_weight := 0.6%float in
  r <- mul_float (dict_get evidence_analysis "relevance" (VFloat 0.5)) 0.4 ;;
  c <- mul_float (dict_get evidence_analysis "completeness" (VFloat 0.5)) 0.3 ;;
  a <- mul_float (dict_get evidence_analysis "authenticity" (VFloat 0.5)) 0.3 ;;
  let evidence_score := (r + c + a)%float in
  k <- mul_float (dict_get agent_verdict "confidence" (VFloat 0.5)) agent_weight ;;
  let combined_confidence := (evidence_score * evidence_weight + k)%float in
  let verdict :=
    if float_ge combined_confidence (confidence_threshold self)
       && truthy (dict_get agent_verdict "approved" (VBool false))
    then "approved"
    else if (combined_confidence <? 1 - confidence_threshold self)%float
            || negb (truthy (dict_get agent_verdict "approved" (VBool false)))
    then "rejected"
    else "uncertain" in
  Ok ({[ "verdict" := VStr verdict;
         "confidence" := VFloat combined_confidence;
         "reasoning" :=
           VStr (str (repr env) (dict_get evidence_analysis "reasoning" (VStr ""))
                   ++ ". "
                   ++ str (repr env) (dict_get agent_verdict "reasoning" (VStr "")));
         "details" := VDict {[ "evidence_analysis" := VDict evidence_analysis;
                               "agent_verdict" := VDict agent_verdict;
                               "combined_score" := VFloat combined_confidence ]} ]} : dict).

(** The body of the [try] block of [verify_milestone]: the three stages
    in sequence. *)
Definition verify_milestone_stages (request : dict) : outcome dict :=
  let milestone_id := dict_get request "milestone_id" VNone in
  let campaign_address := dict_get request "campaign_address" VNone in
  let evidence_hash := dict_get request "evidence_hash" VNone in
  let evidence_url := dict_get request "evidence_url" VNone in
  let description := dict_get request "description" (VStr "") in
  evidence_analysis <- analyze_evidence evidence_hash evidence_url description ;;
  agent_verdict <- get_agent_verdict milestone_id campaign_address evidence_analysis description ;;
  final_result <- combine_results evidence_analysis agent_verdict ;;
  Ok final_result.

(** The result [verify_milestone] returns when a stage raised [e]. *)
Definition failed_result (e : exn) : dict :=
  {[ "verdict" := VStr "uncertain";
     "confidence" := VFloat 0.0;
     "reasoning" := VStr ("Verification failed: " ++ exn_msg e);
     "error" := VStr (exn_msg e) ]}.

(** [verify_milestone(self, request)]. *)
Definition verify_milestone (request : dict) : outcome dict :=
  try_except (verify_milestone_stages request) (fun e => Ok (failed_result e)).

(** The two envelopes of the request handler. *)
Definition result_envelope (msg result : dict) (timestamp : string) : dict :=
  {[ "type" := VStr "verification_result";
     "request_id" := dict_get msg "request_id" VNone;
     "result" := VDict result;
     "timestamp" := VStr timestamp ]}.

Definition error_envelope (msg : dict) (e : exn) (timestamp : string) : dict :=
  {[ "type" := VStr "verification_error";
     "request_id" := dict_get msg "request_id" VNone;
     "error" := VStr (exn_msg e);
     "timestamp" := VStr timestamp ]}.

(** [handle_verification_request(ctx, sender, msg)], the handler
    registered by [setup_handlers]. *)
Definition handle_verification_request (sender : string) (msg : dict) : io unit :=
  io_try_except
    (result <- io_lift (verify_milestone msg) ;;
     timestamp <- utcnow_iso ;;
     send sender (result_envelope msg result timestamp))%io
    (fun e =>
       timestamp <- utcnow_iso ;;
       send sender (error_envelope msg e timestamp))%io.

End Agent.

(** ** The formulas of the specification *)

(** A score in the closed unit interval. *)
Definition in_unit (x : float) : Prop :=
  (0 <=? x)%float = true /\ (x <=? 1)%float = true.

(** The weighted sums of the result combiner as the specification writes
    them, weight first. *)
Definition spec_evidence_score (relevance completeness authenticity : float) : float :=
  (0.4 * relevance + 0.3 * completeness + 0.3 * authenticity)%float.

Definition spec_combined_confidence (evidence_score agent_confidence : float) : float :=
  (0.4 * evidence_score + 0.6 * agent_confidence)%float.

(** The mock verdict as the specification describes it: a base of 0.5,
    three bonuses, a cap at 1.0, approval at the threshold, a reasoning
    text and two fixed recommendations. *)
Definition spec_mock_confidence (description : string) (relevance completeness : float) : float :=
  let base := 0.5%float in
  let base :=
    if negb (String.eqb description "") && (50 <? String.length description)%nat
    then (base + 0.2)%float else base in
  let base := if (0.7 <? relevance)%float then (base + 0.2)%float else base in
  let base := if (0.7 <? completeness)%float then (base + 0.1)%float else base in
  float_min base 1.0.

Definition spec_mock_verdict (threshold : float) (description : string)
    (relevance completeness : float) : dict :=
  let confidence := spec_mock_confidence description relevance completeness in
  {[ "approved" := VBool (float_ge confidence threshold);
     "confidence" := VFloat confidence;
     "reasoning" := VStr ("Mock agent analysis: Description length="
                            ++ pretty (String.length description)
                            ++ ", Evidence relevance=" ++ float_format_2f relevance);
     "recommendations" :=
       VList [ VStr "Consider providing more detailed evidence";
               VStr "Ensure milestone deliverables are clearly defined" ] ]}.

(** ** Rounding to binary64, on integers

    The operations of [SpecFloat] round an exact value [m * 2 ^ e] to 53
    bits.  The definitions below describe that rounding arithmetically;
    they are used to bound the results of float operations. *)

Module Rounding.

Local Open Scope Z_scope.

(** The exponent binary64 assigns to a number of magnitude [e]. *)
Definition fexp64 (e : Z) : Z := Z.max (e - 53) (-1074).

(** Mantissa and exponent of the nearest binary64 number to [m * 2 ^ e]. *)
Definition round_pair (m e : Z) : Z * Z :=
  let t := fexp64 (Zdigits2 m + e) in
  let m' := rne_div m (t - e) in
  if m' =? 2 ^ 53 then (2 ^ 52, t + 1) else (m', t).

Definition of_pair (s : bool) (p : Z * Z) : spec_float :=
  match fst p with
  | Z0 => S754_zero s
  | Zpos m => if snd p <=? 971 then S754_finite s m (snd p) else S754_infinity s
  | Zneg _ => S754_nan
  end.

(** The float obtained by rounding the exact value [m * 2 ^ e]. *)
Definition rnd (s : bool) (m : positive) (e : Z) : spec_float :=
  of_pair s (round_pair (Zpos m) e).

(** Scaled values: [m * 2 ^ (e + K)] for an offset [K] that makes every
    exponent in sight non-negative. *)
Definition val (K m e : Z) : Z := m * 2 ^ (e + K).

(** Canonical representation: the exponent is the one the format assigns
    to the magnitude of the number. *)
Definition canon (m e : Z) : Prop := fexp64 (Zdigits2 m + e) = e.

(** Non-negative finite binary64 numbers and their scaled values. *)
Inductive nn : spec_float -> Prop :=
  | nn_zero s : nn (S754_zero s)
  | nn_finite m e : bounded prec emax m e = true -> nn (S754_finite false m e).

Definition sval (K : Z) (f : spec_float) : Z :=
  match f with
  | S754_finite _ m e => val K (Zpos m) e
  | _ => 0
  end.

Definition nn_b (f : spec_float) : bool :=
  match f with
  | S754_zero _ => true
  | S754_finite false m e => bounded prec emax m e
  | _ => false
  end.

(** A non-negative finite float. *)
Definition nonneg_finite (x : float) : bool := nn_b (Prim2SF x).

(** A positive normal float: its significand has all 53 bits. *)
Definition pos_normal (c : float) : bool :=
  match Prim2SF c with
  | S754_finite false m _ => (Zpos (digits2_pos m) =? 53)
  | _ => false
  end.

End Rounding.

(** ** Sample agents, environments and requests *)

Module Examples.

(** A deployment without credential: the verdict service is never called. *)
Definition local_env : Env :=
  {| getenv := fun _ => None;
     requests_post_json := fun _ _ _ _ => Raise (Exn "ConnectionError" "connection refused");
     ctx_send := fun _ _ => Ok tt;
     utcnow_isoformat := fun n => "2024-01-01T00:00:0" ++ pretty n;
     repr := fun _ => "" |}.

(** The same deployment with a transport that fails to deliver result
    envelopes and delivers everything else. *)
Definition lossy_env : Env :=
  {| getenv := fun _ => None;
     requests_post_json := fun _ _ _ _ => Raise (Exn "ConnectionError" "connection refused");
     ctx_send := fun _ message =>
       match message !! "type" with
       | Some (VStr "verification_result") => Raise (Exn "DeliveryError" "sender unreachable")
       | _ => Ok tt
       end;
     utcnow_isoformat := fun n => "2024-01-01T00:00:0" ++ pretty n;
     repr := fun _ => "" |}.

(** An agent with a given threshold and knowledge service. *)
Definition agent (threshold : float) (query : dict -> string -> outcome value)
    : MilestoneVerifierAgent :=
  {| agent_name := "MilestoneVerifier";
     confidence_threshold := threshold;
     max_retry_attempts := 3;
     metta_client_query := query |}.

(** The agent with the default threshold 0.8. *)
Definition agent_with (query : dict -> string -> outcome value) : MilestoneVerifierAgent :=
  agent 0.8 query.

(** A knowledge service that is down. *)
Definition unreachable : dict -> string -> outcome value :=
  fun _ _ => Raise (Exn "ConnectionError" "knowledge graph unreachable").

(** A knowledge service whose answer lacks a usable relevance. *)
Definition null_relevance : dict -> string -> outcome value :=
  fun _ _ => Ok (VDict {[ "relevance" := VNone ]}).

(** An inbound verification request. *)
Definition sample_request : dict :=
  {[ "request_id" := VStr "req-7";
     "milestone_id" := VStr "m-1";
     "campaign_address" := VStr "0xC0FFEE";
     "evidence_hash" := VStr "QmHash";
     "description" := VStr "Prototype delivered" ]}.

(** A description of 80 characters. *)
Definition description80 : string :=
  "The prototype was delivered, reviewed by two auditors and deployed to testnet 3.".

Definition analysis (relevance completeness authenticity : float) : dict :=
  {[ "relevance" := VFloat relevance;
     "completeness" := VFloat completeness;
     "authenticity" := VFloat authenticity;
     "reasoning" := VStr "Evidence analysis completed";
     "metadata" := VDict ∅ ]}.

Definition verdict (approved : bool) (confidence : float) : dict :=
  {[ "approved" := VBool approved;
     "confidence" := VFloat confidence;
     "reasoning" := VStr "Agent analysis completed";
     "recommendations" := VList [] ]}.

End Examples.

(** ** Predicates and results used to describe the stages *)

(** A value that Python arithmetic with a float accepts: a float, a bool,
    or an int that converts to a float without overflow. *)
Definition is_number (v : value) : bool :=
  match v with
  | VFloat _ | VBool _ => true
  | VInt z => match float_of_int z with Ok _ => true | Raise _ => false end
  | _ => false
  end.

(** The verdict transport cannot obtain a remote answer: no credential is
    configured, or every call to the verdict service raises. *)
Definition falls_back (env : Env) : Prop :=
  getenv env "ASI_API_KEY" = None \/
  getenv env "ASI_API_KEY" = Some "" \/
  (forall url json headers timeout,
     exists e, requests_post_json env url json headers timeout = Raise e).

(** The verdict [get_agent_verdict] returns when obtaining or reading the
    response raised [e]. *)
Definition failed_verdict (e : exn) : dict :=
  {[ "approved" := VBool false;
     "confidence" := VFloat 0.0;
     "reasoning" := VStr ("Agent verdict failed: " ++ exn_msg e);
     "recommendations" := VList [] ]}.

(** The analysis [analyze_evidence] returns when the query or the reading
    of its response raised [e]. *)
Definition failed_analysis (e : exn) : dict :=
  {[ "relevance" := VFloat 0.5;
     "completeness" := VFloat 0.5;
     "authenticity" := VFloat 0.5;
     "reasoning" := VStr ("Evidence analysis failed: " ++ exn_msg e);
     "metadata" := VDict ∅ ]}.

(** The keys of the three dictionaries the stages produce. *)
Definition analysis_keys : gset string :=
  {[ "relevance"; "completeness"; "authenticity"; "reasoning"; "metadata" ]}.

Definition verdict_keys : gset string :=
  {[ "approved"; "confidence"; "reasoning"; "recommendations" ]}.

(** Two scores in order below a finite non-negative bound:
    [0 <= x <= x' <= u]. *)
Definition ordered_below (x x' u : float) : Prop :=
  (0 <=? x)%float = true /\ (x <=? x')%float = true /\ (x' <=? u)%float = true /\
  Rounding.nonneg_finite u = true.

Module MoreExamples.

(** A deployment with a credential whose verdict service is down. *)
Definition keyed_env : Env :=
  {| getenv := fun name => if String.eqb name "ASI_API_KEY" then Some "secret" else None;
     requests_post_json := fun _ _ _ _ => Raise (Exn "Timeout" "read timed out");
     ctx_send := fun _ _ => Ok tt;
     utcnow_isoformat := fun n => "2024-01-01T00:00:0" ++ pretty n;
     repr := fun _ => "" |}.

(** A knowledge service that answers with a JSON array. *)
Definition array_answer : dict -> string -> outcome value :=
  fun _ _ => Ok (VList [VFloat 0.9; VFloat 0.8]).

(** A deployment with a credential whose verdict service answers with an
    empty JSON object. *)
Definition terse_env : Env :=
  {| getenv := fun name => if String.eqb name "ASI_API_KEY" then Some "secret" else None;
     requests_post_json := fun _ _ _ _ => Ok (VDict ∅);
     ctx_send := fun _ _ => Ok tt;
     utcnow_isoformat := fun n => "2024-01-01T00:00:0" ++ pretty n;
     repr := fun _ => "" |}.

End MoreExamples.


(** * Facts about binary64 rounding *)

Module RoundingFacts.

Import Rounding.
Local Open Scope Z_scope.

Lemma fexp64_eq e : fexp prec emax e = fexp64 e.
Proof. reflexivity. Qed.

Lemma pow2_pos k : 0 <= k -> 0 < 2 ^ k.
Proof. intros; apply Z.pow_pos_nonneg; lia. Qed.

Lemma pow2_split a b : 0 <= a -> 0 <= b -> 2 ^ (a + b) = 2 ^ a * 2 ^ b.
Proof. intros; apply Z.pow_add_r; lia. Qed.

Lemma pow2_le a b : 0 <= a <= b -> 2 ^ a <= 2 ^ b.
Proof. intros; apply Z.pow_le_mono_r; lia. Qed.

Lemma pow2_lt a b : 0 <= a < b -> 2 ^ a < 2 ^ b.
Proof. intros; apply Z.pow_lt_mono_r; lia. Qed.

Lemma pow2_lt_inv a b : 0 <= a -> 0 <= b -> 2 ^ a < 2 ^ b -> a < b.
Proof. intros Ha Hb H. apply (Z.pow_lt_mono_r_iff 2); lia. Qed.

(** The number of binary digits of a positive number. *)
Lemma digits2_pos_bounds m :
  2 ^ (Zpos (digits2_pos m) - 1) <= Zpos m < 2 ^ Zpos (digits2_pos m).
Proof.
  induction m as [p IH | p IH | ]; cbn [digits2_pos].
  - rewrite Pos2Z.inj_succ, Pos2Z.inj_xI.
    replace (Z.succ (Zpos (digits2_pos p)) - 1) with (1 + (Zpos (digits2_pos p) - 1)) by lia.
    unfold Z.succ. rewrite (Z.add_comm _ 1).
    rewrite !pow2_split by lia. change (2 ^ 1) with 2. lia.
  - rewrite Pos2Z.inj_succ, Pos2Z.inj_xO.
    replace (Z.succ (Zpos (digits2_pos p)) - 1) with (1 + (Zpos (digits2_pos p) - 1)) by lia.
    unfold Z.succ. rewrite (Z.add_comm _ 1).
    rewrite !pow2_split by lia. change (2 ^ 1) with 2. lia.
  - cbn. lia.
Qed.

Lemma digits2_pos_unique m k :
  2 ^ (k - 1) <= Zpos m < 2 ^ k -> Zpos (digits2_pos m) = k.
Proof.
  intros [Hl Hu]. pose proof (digits2_pos_bounds m) as [Bl Bu].
  assert (0 < k).
  { destruct (Z.lt_trichotomy k 0) as [Hk | [Hk | Hk]]; auto.
    - rewrite Z.pow_neg_r in Hu by lia. lia.
    - subst. cbn in Hu. lia. }
  assert (Zpos (digits2_pos m) - 1 < k) by (apply pow2_lt_inv; lia).
  assert (k - 1 < Zpos (digits2_pos m)) by (apply pow2_lt_inv; lia).
  lia.
Qed.

(** Division by a power of two with rounding to nearest, ties to even:
    bounds, invariance under scaling, monotonicity. *)
Lemma rne_div_bounds m k : m / 2 ^ k <= rne_div m k <= m / 2 ^ k + 1.
Proof.
  unfold rne_div. destruct (2 * (m mod 2 ^ k) ?= 2 ^ k); try destruct (Z.even _); lia.
Qed.

Lemma rne_div_0 m : rne_div m 0 = m.
Proof.
  unfold rne_div. rewrite Z.pow_0_r, Z.mod_1_r, Z.div_1_r. reflexivity.
Qed.

Lemma rne_div_scale m k j :
  0 <= k -> 0 <= j -> rne_div (m * 2 ^ j) (k + j) = rne_div m k.
Proof.
  intros Hk Hj. unfold rne_div.
  pose proof (pow2_pos k Hk). pose proof (pow2_pos j Hj).
  rewrite pow2_split by lia.
  rewrite Z.div_mul_cancel_r by lia.
  rewrite Z.mul_mod_distr_r by lia.
  replace (2 * (m mod 2 ^ k * 2 ^ j)) with (2 ^ j * (2 * (m mod 2 ^ k))) by ring.
  rewrite (Z.mul_comm (2 ^ k) (2 ^ j)).
  rewrite <- Zmult_compare_compat_l by lia. reflexivity.
Qed.

Lemma rne_div_mono_num k a b :
  0 <= k -> a <= b -> rne_div a k <= rne_div b k.
Proof.
  intros Hk Hab. pose proof (pow2_pos k Hk) as HD.
  pose proof (Z.div_le_mono a b (2 ^ k) HD Hab) as Hq.
  destruct (Z.eq_dec (a / 2 ^ k) (b / 2 ^ k)) as [Heq | Hne].
  - assert (a mod 2 ^ k <= b mod 2 ^ k).
    { pose proof (Z.div_mod a (2 ^ k)). pose proof (Z.div_mod b (2 ^ k)).
      rewrite Heq in *. nia. }
    unfold rne_div. rewrite Heq.
    destruct (Z.compare_spec (2 * (a mod 2 ^ k)) (2 ^ k));
      destruct (Z.compare_spec (2 * (b mod 2 ^ k)) (2 ^ k));
      destruct (Z.even (b / 2 ^ k)); lia.
  - pose proof (rne_div_bounds a k). pose proof (rne_div_bounds b k). lia.
Qed.

Lemma rne_div_mono m1 n1 m2 n2 :
  0 <= n1 -> 0 <= n2 -> m1 * 2 ^ n2 <= m2 * 2 ^ n1 ->
  rne_div m1 n1 <= rne_div m2 n2.
Proof.
  intros H1 H2 H.
  rewrite <- (rne_div_scale m1 n1 n2), <- (rne_div_scale m2 n2 n1) by lia.
  rewrite (Z.add_comm n2 n1). apply rne_div_mono_num; lia.
Qed.

(** The right shifts of [SpecFloat] compute that division: the record
    kept along the shifts has the quotient, the last bit shifted out and
    whether an earlier bit was set. *)
Lemma iter_pos_nat {A} (f : A -> A) p x :
  SpecFloat.iter_pos f p x = Nat.iter (Pos.to_nat p) f x.
Proof.
  revert x. induction p as [p IH | p IH | ]; intros x; cbn [SpecFloat.iter_pos].
  - rewrite !IH, Pos2Nat.inj_xI. cbn [Nat.mul].
    rewrite Nat.add_0_r, Nat.iter_succ_r, Nat.iter_add. reflexivity.
  - rewrite !IH, Pos2Nat.inj_xO. cbn [Nat.mul].
    rewrite Nat.add_0_r, Nat.iter_add. reflexivity.
  - reflexivity.
Qed.

Lemma shr_1_nonneg m r s :
  0 <= m -> shr_1 (Build_shr_record m r s) = Build_shr_record (m / 2) (Z.odd m) (r || s).
Proof.
  intros Hm. destruct m as [ | p | p]; [reflexivity | | lia].
  destruct p as [p | p | ]; cbn [shr_1].
  - f_equal. rewrite Pos2Z.inj_xI. apply (Z.div_unique _ _ _ 1); lia.
  - f_equal. rewrite Pos2Z.inj_xO. apply (Z.div_unique _ _ _ 0); lia.
  - reflexivity.
Qed.

Lemma shr_iter m n :
  0 <= m ->
  Nat.iter (S n) shr_1 (Build_shr_record m false false) =
  Build_shr_record (m / 2 ^ Z.of_nat (S n))
                   (Z.odd (m / 2 ^ Z.of_nat n))
                   (negb (m mod 2 ^ Z.of_nat n =? 0)).
Proof.
  intros Hm. induction n as [ | n IH].
  - cbn [Nat.iter]. rewrite shr_1_nonneg by lia.
    change (Z.of_nat 1) with 1. change (Z.of_nat 0) with 0.
    rewrite Z.pow_0_r, Z.pow_1_r, Z.div_1_r, Z.mod_1_r. reflexivity.
  - change (Nat.iter (S (S n)) shr_1 ?x) with (shr_1 (Nat.iter (S n) shr_1 x)).
    rewrite IH.
    assert (0 < 2 ^ Z.of_nat n) by (apply pow2_pos; lia).
    assert (0 < 2 ^ Z.of_nat (S n)) by (apply pow2_pos; lia).
    rewrite shr_1_nonneg by (apply Z.div_pos; lia).
    assert (Hs : 2 ^ Z.of_nat (S n) = 2 ^ Z.of_nat n * 2).
    { rewrite Nat2Z.inj_succ. unfold Z.succ. rewrite pow2_split by lia. reflexivity. }
    f_equal.
    + rewrite (Nat2Z.inj_succ (S n)). unfold Z.succ. rewrite pow2_split by lia.
      change (2 ^ 1) with 2. rewrite Z.div_div by lia. reflexivity.
    + rewrite Hs. rewrite Z.rem_mul_r by lia.
      rewrite Zmod_odd.
      pose proof (Z.mod_pos_bound m (2 ^ Z.of_nat n) ltac:(lia)).
      destruct (Z.odd (m / 2 ^ Z.of_nat n)); cbn [orb].
      * symmetry. apply negb_true_iff, Z.eqb_neq. lia.
      * rewrite Z.mul_0_r, Z.add_0_r. reflexivity.
Qed.

Lemma shr_round m p :
  0 <= m ->
  let mrs := SpecFloat.iter_pos shr_1 p (Build_shr_record m false false) in
  round_nearest_even (shr_m mrs) (loc_of_shr_record mrs) = rne_div m (Zpos p).
Proof.
  intros Hm. cbv zeta. rewrite iter_pos_nat.
  destruct (Pos2Nat.is_succ p) as [n Hn]. rewrite Hn.
  assert (Hp : Zpos p = Z.of_nat n + 1) by lia.
  rewrite shr_iter by lia. rewrite Hp. clear Hn Hp.
  set (k := Z.of_nat n). assert (Hk : 0 <= k) by lia.
  replace (Z.of_nat (S n)) with (k + 1) by lia. clearbody k. clear n.
  unfold rne_div.
  rewrite (pow2_split k 1) by lia. change (2 ^ 1) with 2.
  pose proof (pow2_pos k Hk) as HD.
  rewrite Z.rem_mul_r by lia. rewrite Zmod_odd.
  pose proof (Z.mod_pos_bound m (2 ^ k) HD) as Hr.
  cbn [shr_m loc_of_shr_record].
  destruct (Z.odd (m / 2 ^ k)); destruct (Z.eqb_spec (m mod 2 ^ k) 0) as [H0 | H0];
    cbn [negb round_nearest_even].
  - rewrite H0. replace (2 * (0 + 2 ^ k * 1) ?= 2 ^ k * 2) with Eq; [reflexivity|].
    symmetry. apply Z.compare_eq_iff. lia.
  - replace (2 * (m mod 2 ^ k + 2 ^ k * 1) ?= 2 ^ k * 2) with Gt; [reflexivity|].
    symmetry. apply Z.compare_gt_iff. lia.
  - rewrite H0. replace (2 * (0 + 2 ^ k * 0) ?= 2 ^ k * 2) with Lt; [reflexivity|].
    symmetry. apply Z.compare_lt_iff. lia.
  - replace (2 * (m mod 2 ^ k + 2 ^ k * 0) ?= 2 ^ k * 2) with Lt; [reflexivity|].
    symmetry. apply Z.compare_lt_iff. lia.
Qed.

Lemma fexp64_ge e : -1074 <= fexp64 e.
Proof. unfold fexp64. lia. Qed.

(** First shift of [binary_round_aux] on an exact positive input. *)
Lemma shr_fexp_round mp e :
  let t := fexp64 (Zpos (digits2_pos mp) + e) in
  e <= t ->
  exists mrs, shr_fexp prec emax (Zpos mp) e loc_Exact = (mrs, t) /\
    round_nearest_even (shr_m mrs) (loc_of_shr_record mrs) = rne_div (Zpos mp) (t - e).
Proof.
  intros t Ht. unfold shr_fexp. rewrite fexp64_eq. cbn [Zdigits2]. fold t.
  unfold shr. destruct (t - e) as [ | p | p] eqn:Hn; [ | | lia].
  - eexists; split; [f_equal; lia | ]. cbn. now rewrite rne_div_0.
  - eexists; split; [f_equal; lia | ]. cbn [shr_record_of_loc]. apply shr_round. lia.
Qed.

Lemma shr_fexp_noshift m e :
  fexp64 (Zdigits2 m + e) <= e ->
  shr_fexp prec emax m e loc_Exact = (Build_shr_record m false false, e).
Proof.
  intros H. unfold shr_fexp. rewrite fexp64_eq. unfold shr.
  destruct (fexp64 (Zdigits2 m + e) - e) eqn:Hn; [reflexivity | lia | reflexivity].
Qed.

Lemma digits2_pos_le p k : 0 <= k -> Zpos p < 2 ^ k -> Zpos (digits2_pos p) <= k.
Proof.
  intros Hk H. pose proof (digits2_pos_bounds p) as [Bl _].
  assert (Zpos (digits2_pos p) - 1 < k) by (apply pow2_lt_inv; lia). lia.
Qed.

Lemma digits2_pos_ge p k : 0 <= k -> 2 ^ k <= Zpos p -> k < Zpos (digits2_pos p).
Proof.
  intros Hk H. pose proof (digits2_pos_bounds p) as [_ Bu].
  apply pow2_lt_inv; lia.
Qed.

(** The rounded mantissa fits in 53 bits, or is exactly [2 ^ 53]. *)
Lemma rne_div_fits mp e :
  let t := fexp64 (Zpos (digits2_pos mp) + e) in
  e <= t -> 0 <= rne_div (Zpos mp) (t - e) <= 2 ^ 53.
Proof.
  intros t Ht. pose proof (rne_div_bounds (Zpos mp) (t - e)) as [Hl Hu].
  pose proof (digits2_pos_bounds mp) as [_ Bu].
  assert (Hn : 0 <= t - e) by lia. pose proof (pow2_pos _ Hn) as HD.
  assert (0 <= Zpos mp / 2 ^ (t - e)) by (apply Z.div_pos; lia).
  assert (Zpos mp / 2 ^ (t - e) < 2 ^ 53).
  { apply Z.div_lt_upper_bound; [lia | ].
    rewrite <- pow2_split by lia.
    eapply Z.lt_le_trans; [exact Bu | ]. apply pow2_le. unfold t, fexp64 in *. lia. }
  lia.
Qed.

Lemma binary_round_aux_exact s mp e :
  e <= fexp64 (Zpos (digits2_pos mp) + e) ->
  binary_round_aux prec emax s (Zpos mp) e loc_Exact = of_pair s (round_pair (Zpos mp) e).
Proof.
  intros Ht. unfold binary_round_aux.
  destruct (shr_fexp_round mp e Ht) as (mrs & -> & Hr). rewrite Hr. clear mrs Hr.
  pose proof (rne_div_fits mp e Ht) as Hfit.
  unfold round_pair. cbn [Zdigits2].
  set (t := fexp64 (Zpos (digits2_pos mp) + e)) in *.
  pose proof (fexp64_ge (Zpos (digits2_pos mp) + e)) as Htge. fold t in Htge.
  set (m' := rne_div (Zpos mp) (t - e)) in *.
  destruct (Z.eqb_spec m' (2 ^ 53)) as [Heq | Hne].
  - rewrite Heq. unfold shr_fexp. rewrite fexp64_eq.
    change (Zdigits2 (2 ^ 53)) with 54.
    replace (fexp64 (54 + t) - t) with 1 by (unfold fexp64; lia).
    cbn [shr shr_record_of_loc SpecFloat.iter_pos]. reflexivity.
  - rewrite shr_fexp_noshift.
    + cbn [shr_m]. unfold of_pair. cbn [fst snd]. reflexivity.
    + destruct m' as [ | p | p]; cbn [Zdigits2]; [unfold fexp64; lia | | lia].
      assert (Zpos (digits2_pos p) <= 53) by (apply digits2_pos_le; lia).
      unfold fexp64. lia.
Qed.

Lemma val_bounds K mp e :
  0 <= e + K ->
  2 ^ (Zpos (digits2_pos mp) - 1 + e + K) <= val K (Zpos mp) e
    < 2 ^ (Zpos (digits2_pos mp) + e + K).
Proof.
  intros He. unfold val. pose proof (digits2_pos_bounds mp) as [Bl Bu].
  pose proof (pow2_pos _ He).
  replace (Zpos (digits2_pos mp) - 1 + e + K) with ((Zpos (digits2_pos mp) - 1) + (e + K)) by lia.
  replace (Zpos (digits2_pos mp) + e + K) with (Zpos (digits2_pos mp) + (e + K)) by lia.
  rewrite (pow2_split (Zpos (digits2_pos mp) - 1) (e + K)) by lia.
  rewrite (pow2_split (Zpos (digits2_pos mp)) (e + K)) by lia. nia.
Qed.

Lemma rne_div_normal mp e :
  let t := fexp64 (Zpos (digits2_pos mp) + e) in
  e <= t -> -1074 < t -> 2 ^ 52 <= rne_div (Zpos mp) (t - e).
Proof.
  intros t Ht Hn. pose proof (rne_div_bounds (Zpos mp) (t - e)) as [Hl _].
  pose proof (digits2_pos_bounds mp) as [Bl _].
  assert (Hd : t - e = Zpos (digits2_pos mp) - 53) by (unfold t, fexp64 in *; lia).
  assert (0 <= t - e) by lia.
  assert (2 ^ 52 <= Zpos mp / 2 ^ (t - e)).
  { apply Z.div_le_lower_bound; [apply pow2_pos; lia | ].
    rewrite <- pow2_split by lia.
    replace (t - e + 52) with (Zpos (digits2_pos mp) - 1) by lia. exact Bl. }
  lia.
Qed.

Lemma round_value_mono K mp1 e1 mp2 e2 :
  let t1 := fexp64 (Zpos (digits2_pos mp1) + e1) in
  let t2 := fexp64 (Zpos (digits2_pos mp2) + e2) in
  0 <= e1 + K -> 0 <= e2 + K -> e1 <= t1 -> e2 <= t2 ->
  val K (Zpos mp1) e1 <= val K (Zpos mp2) e2 ->
  val K (rne_div (Zpos mp1) (t1 - e1)) t1 <= val K (rne_div (Zpos mp2) (t2 - e2)) t2.
Proof.
  intros t1 t2 HK1 HK2 Ht1 Ht2 HV.
  pose proof (val_bounds K mp1 e1 HK1) as [B1l B1u].
  pose proof (val_bounds K mp2 e2 HK2) as [B2l B2u].
  pose proof (digits2_pos_bounds mp1) as [D1l D1u].
  pose proof (digits2_pos_bounds mp2) as [D2l D2u].
  set (d1 := Zpos (digits2_pos mp1)) in *. set (d2 := Zpos (digits2_pos mp2)) in *.
  assert (Hd1 : 0 < d1) by (unfold d1; lia). assert (Hd2 : 0 < d2) by (unfold d2; lia).
  assert (Hmag : d1 + e1 <= d2 + e2).
  { assert (d1 - 1 + e1 + K < d2 + e2 + K) by (apply pow2_lt_inv; lia). lia. }
  assert (Hn1 : 0 <= t1 - e1) by lia. assert (Hn2 : 0 <= t2 - e2) by lia.
  assert (Ht1K : 0 <= t1 + K) by lia. assert (Ht2K : 0 <= t2 + K) by lia.
  pose proof (pow2_pos _ Hn1) as P1. pose proof (pow2_pos _ Hn2) as P2.
  pose proof (pow2_pos _ Ht1K) as PT1. pose proof (pow2_pos _ Ht2K) as PT2.
  pose proof (pow2_pos _ HK1) as PE1. pose proof (pow2_pos _ HK2) as PE2.
  pose proof (rne_div_fits mp1 e1 Ht1) as F1. pose proof (rne_div_fits mp2 e2 Ht2) as F2.
  fold d1 t1 in F1. fold d2 t2 in F2.
  unfold val in *.
  destruct (Z.eq_dec t1 t2) as [Heq | Hne].
  - replace (2 ^ (t2 + K)) with (2 ^ (t1 + K)) by (now rewrite Heq).
    apply Z.mul_le_mono_nonneg_r; [lia | ].
    apply rne_div_mono; [lia | lia | ].
    assert (E1 : 2 ^ (t1 + K) = 2 ^ (e1 + K) * 2 ^ (t1 - e1)).
    { rewrite <- (pow2_split (e1 + K) (t1 - e1)) by lia. f_equal. lia. }
    assert (E2 : 2 ^ (t1 + K) = 2 ^ (e2 + K) * 2 ^ (t2 - e2)).
    { rewrite <- (pow2_split (e2 + K) (t2 - e2)) by lia. f_equal. lia. }
    clear Heq.
    apply <- (Z.mul_le_mono_pos_r (Zpos mp1 * 2 ^ (t2 - e2)) (Zpos mp2 * 2 ^ (t1 - e1))
                (2 ^ (t1 + K))); [ | lia].
    replace (Zpos mp1 * 2 ^ (t2 - e2) * 2 ^ (t1 + K))
      with (Zpos mp1 * 2 ^ (e1 + K) * (2 ^ (t1 - e1) * 2 ^ (t2 - e2))) by (rewrite E1; ring).
    replace (Zpos mp2 * 2 ^ (t1 - e1) * 2 ^ (t1 + K))
      with (Zpos mp2 * 2 ^ (e2 + K) * (2 ^ (t1 - e1) * 2 ^ (t2 - e2))) by (rewrite E2; ring).
    apply Z.mul_le_mono_nonneg_r; [ | exact HV].
    apply Z.mul_nonneg_nonneg; lia.
  - assert (Hlt : t1 < t2) by (unfold t1, t2, fexp64 in *; lia).
    assert (Ht2n : -1074 < t2) by (pose proof (fexp64_ge (d1 + e1)); fold t1 in H; lia).
    assert (Ht2e : t2 = d2 + e2 - 53) by (unfold t2, fexp64 in *; lia).
    assert (Hmag' : d1 + e1 < d2 + e2) by (unfold t1, t2, fexp64 in *; lia).
    pose proof (rne_div_normal mp2 e2 Ht2 Ht2n) as N2. fold d2 t2 in N2.
    apply (Z.le_trans _ (2 ^ (d2 + e2 - 1 + K))).
    + (* the smaller value rounds to at most the binade boundary *)
      pose proof (rne_div_bounds (Zpos mp1) (t1 - e1)) as [_ U1].
      destruct (Z_le_gt_dec (t1 - e1) d1) as [Hle | Hgt].
      * assert (Zpos mp1 / 2 ^ (t1 - e1) < 2 ^ (d1 - (t1 - e1))).
        { apply Z.div_lt_upper_bound; [lia | ].
          rewrite <- pow2_split by lia. replace (t1 - e1 + (d1 - (t1 - e1))) with d1 by lia.
          exact D1u. }
        apply (Z.le_trans _ (2 ^ (d1 - (t1 - e1)) * 2 ^ (t1 + K))).
        { apply Z.mul_le_mono_nonneg_r; lia. }
        rewrite <- pow2_split by lia. apply pow2_le. lia.
      * assert (Zpos mp1 / 2 ^ (t1 - e1) = 0).
        { apply Z.div_small. split; [lia | ].
          eapply Z.lt_le_trans; [exact D1u | ]. apply pow2_le. lia. }
        apply (Z.le_trans _ (1 * 2 ^ (t1 + K))).
        { apply Z.mul_le_mono_nonneg_r; lia. }
        rewrite Z.mul_1_l. apply pow2_le. lia.
    + apply (Z.le_trans _ (2 ^ 52 * 2 ^ (t2 + K))).
      * rewrite <- pow2_split by lia. apply pow2_le. lia.
      * apply Z.mul_le_mono_nonneg_r; lia.
Qed.

Lemma round_pair_range mp e :
  e <= fexp64 (Zpos (digits2_pos mp) + e) ->
  0 <= fst (round_pair (Zpos mp) e) < 2 ^ 53 /\
  -1074 <= snd (round_pair (Zpos mp) e) /\ e <= snd (round_pair (Zpos mp) e).
Proof.
  intros Ht. pose proof (rne_div_fits mp e Ht) as F.
  pose proof (fexp64_ge (Zpos (digits2_pos mp) + e)).
  unfold round_pair. cbn [Zdigits2].
  destruct (Z.eqb_spec (rne_div (Zpos mp) (fexp64 (Zpos (digits2_pos mp) + e) - e)) (2 ^ 53));
    cbn [fst snd]; lia.
Qed.

Lemma round_pair_canon mp e :
  e <= fexp64 (Zpos (digits2_pos mp) + e) ->
  0 < fst (round_pair (Zpos mp) e) ->
  canon (fst (round_pair (Zpos mp) e)) (snd (round_pair (Zpos mp) e)).
Proof.
  intros Ht. pose proof (rne_div_fits mp e Ht) as F.
  pose proof (fexp64_ge (Zpos (digits2_pos mp) + e)) as Hge.
  pose proof (rne_div_normal mp e Ht) as N.
  unfold round_pair, canon. cbn [Zdigits2].
  set (t := fexp64 (Zpos (digits2_pos mp) + e)) in *.
  destruct (Z.eqb_spec (rne_div (Zpos mp) (t - e)) (2 ^ 53)) as [Heq | Hne]; cbn [fst snd].
  - intros _. change (Zdigits2 (2 ^ 52)) with 53. unfold fexp64. lia.
  - intros Hpos. destruct (rne_div (Zpos mp) (t - e)) as [ | p | p] eqn:Hm; [lia | | lia].
    cbn [Zdigits2].
    assert (Zpos (digits2_pos p) <= 53) by (apply digits2_pos_le; lia).
    destruct (Z.eq_dec t (-1074)) as [Ht0 | Ht0].
    + unfold fexp64. lia.
    + assert (52 < Zpos (digits2_pos p)) by (apply digits2_pos_ge; lia).
      unfold fexp64. lia.
Qed.

Lemma round_pair_val K mp e :
  let t := fexp64 (Zpos (digits2_pos mp) + e) in
  0 <= t + K ->
  val K (fst (round_pair (Zpos mp) e)) (snd (round_pair (Zpos mp) e))
  = val K (rne_div (Zpos mp) (t - e)) t.
Proof.
  intros t HK. unfold round_pair. cbn [Zdigits2]. fold t.
  destruct (Z.eqb_spec (rne_div (Zpos mp) (t - e)) (2 ^ 53)) as [Heq | Hne]; cbn [fst snd].
  - rewrite Heq. unfold val. replace (t + 1 + K) with (1 + (t + K)) by lia.
    rewrite (pow2_split 1 (t + K)) by lia. change (2 ^ 1) with 2.
    change (2 ^ 53) with (2 ^ 52 * 2). ring.
  - reflexivity.
Qed.

Lemma canon_lt K m1 e1 m2 e2 :
  canon (Zpos m1) e1 -> canon (Zpos m2) e2 -> 0 <= e1 + K -> e1 < e2 ->
  val K (Zpos m1) e1 < val K (Zpos m2) e2.
Proof.
  unfold canon. cbn [Zdigits2]. intros C1 C2 HK Hlt.
  pose proof (digits2_pos_bounds m1) as [_ U1]. pose proof (digits2_pos_bounds m2) as [L2 _].
  assert (Zpos (digits2_pos m1) <= 53) by (unfold fexp64 in C1; lia).
  assert (Zpos (digits2_pos m2) = 53) by (unfold fexp64 in C1, C2; lia).
  unfold val. pose proof (pow2_pos _ HK).
  assert (0 < 2 ^ (e2 + K)) by (apply pow2_pos; lia).
  apply (Z.lt_le_trans _ (2 ^ 53 * 2 ^ (e1 + K))).
  - apply Z.mul_lt_mono_pos_r; [lia | ].
    eapply Z.lt_le_trans; [exact U1 | ]. apply pow2_le. lia.
  - apply (Z.le_trans _ (2 ^ 52 * 2 ^ (e2 + K))).
    + rewrite <- !pow2_split by lia. apply pow2_le. lia.
    + apply Z.mul_le_mono_nonneg_r; [lia | ].
      replace 52 with (Zpos (digits2_pos m2) - 1) by lia. exact L2.
Qed.

Lemma of_pair_le K m1 e1 m2 e2 :
  0 <= m1 -> 0 <= m2 ->
  (0 < m1 -> canon m1 e1) -> (0 < m2 -> canon m2 e2) ->
  0 <= e1 + K -> 0 <= e2 + K ->
  val K m1 e1 <= val K m2 e2 ->
  SFleb (of_pair false (m1, e1)) (of_pair false (m2, e2)) = true.
Proof.
  intros H1 H2 C1 C2 HK1 HK2 HV.
  pose proof (pow2_pos _ HK1) as P1. pose proof (pow2_pos _ HK2) as P2.
  unfold of_pair. cbn [fst snd].
  destruct m1 as [ | p1 | p1]; [ | | lia].
  - destruct m2 as [ | p2 | p2]; [reflexivity | | lia].
    destruct (e2 <=? 971); reflexivity.
  - destruct m2 as [ | p2 | p2]; [unfold val in HV; lia | | lia].
    specialize (C1 ltac:(lia)). specialize (C2 ltac:(lia)).
    assert (Hle : e1 <= e2).
    { destruct (Z_le_gt_dec e1 e2) as [Hle | Hgt]; [exact Hle | ].
      pose proof (canon_lt K p2 e2 p1 e1 C2 C1 HK2 ltac:(lia)). lia. }
    destruct (Z.leb_spec e2 971) as [Hb | Hb].
    + destruct (Z.leb_spec e1 971) as [Hb1 | Hb1]; [ | lia].
      unfold SFleb, SFcompare.
      destruct (Z.compare_spec e1 e2) as [Heq | Hlt | Hgt]; [ | reflexivity | lia].
      subst e2. unfold val in HV.
      assert (Zpos p1 <= Zpos p2) by nia.
      change (Pos.compare_cont Eq p1 p2) with (Pos.compare p1 p2).
      destruct (Pos.compare_spec p1 p2); [reflexivity | reflexivity | lia].
    + destruct (e1 <=? 971); reflexivity.
Qed.

Lemma rnd_le K mp1 e1 mp2 e2 :
  0 <= e1 + K -> 0 <= e2 + K ->
  e1 <= fexp64 (Zpos (digits2_pos mp1) + e1) ->
  e2 <= fexp64 (Zpos (digits2_pos mp2) + e2) ->
  val K (Zpos mp1) e1 <= val K (Zpos mp2) e2 ->
  SFleb (rnd false mp1 e1) (rnd false mp2 e2) = true.
Proof.
  intros HK1 HK2 Ht1 Ht2 HV. unfold rnd.
  pose proof (round_pair_range mp1 e1 Ht1) as (R1 & _ & E1).
  pose proof (round_pair_range mp2 e2 Ht2) as (R2 & _ & E2).
  pose proof (round_pair_canon mp1 e1 Ht1) as C1.
  pose proof (round_pair_canon mp2 e2 Ht2) as C2.
  pose proof (round_pair_val K mp1 e1 ltac:(lia)) as V1.
  pose proof (round_pair_val K mp2 e2 ltac:(lia)) as V2.
  pose proof (round_value_mono K mp1 e1 mp2 e2 HK1 HK2 Ht1 Ht2 HV) as HM.
  destruct (round_pair (Zpos mp1) e1) as [m1 x1]. destruct (round_pair (Zpos mp2) e2) as [m2 x2].
  cbn [fst snd] in *.
  apply (of_pair_le K); try lia; try assumption.
Qed.

Lemma bounded_canon m e :
  bounded prec emax m e = true -> canon (Zpos m) e /\ -1074 <= e <= 971.
Proof.
  unfold bounded, canonical_mantissa. rewrite fexp64_eq.
  intros H. apply andb_true_iff in H as [H1 H2].
  apply Z.eqb_eq in H1. apply Z.leb_le in H2. change (emax - prec) with 971 in H2.
  unfold canon. cbn [Zdigits2]. split; [exact H1 | ].
  pose proof (fexp64_ge (Zpos (digits2_pos m) + e)). lia.
Qed.

Lemma val_pos K m e : 0 <= e + K -> 0 < val K (Zpos m) e.
Proof. intros H. unfold val. pose proof (pow2_pos _ H). nia. Qed.

Lemma rnd_id s m e : bounded prec emax m e = true -> rnd s m e = S754_finite s m e.
Proof.
  intros H. apply bounded_canon in H as [C B]. unfold canon in C. cbn [Zdigits2] in C.
  unfold rnd, round_pair. cbn [Zdigits2]. rewrite C, Z.sub_diag, rne_div_0.
  pose proof (digits2_pos_bounds m) as [_ U].
  assert (Zpos m < 2 ^ 53).
  { eapply Z.lt_le_trans; [exact U | ]. apply pow2_le. unfold fexp64 in C. lia. }
  destruct (Z.eqb_spec (Zpos m) (2 ^ 53)) as [Heq | _]; [lia | ].
  unfold of_pair. cbn [fst snd]. destruct (Z.leb_spec e 971); [reflexivity | lia].
Qed.

Lemma zero_le_rnd s m e :
  e <= fexp64 (Zpos (digits2_pos m) + e) ->
  SFleb (S754_zero s) (rnd false m e) = true.
Proof.
  intros Ht. pose proof (round_pair_range m e Ht) as (R & _).
  unfold rnd, of_pair. destruct (fst (round_pair (Zpos m) e)) as [ | p | p]; [reflexivity | | lia].
  destruct (snd (round_pair (Zpos m) e) <=? 971); reflexivity.
Qed.


(** Order on floats against order on values. *)
Lemma SFleb_sval K x y :
  nn x -> nn y -> 1074 <= K -> SFleb x y = true -> sval K x <= sval K y.
Proof.
  intros Hx Hy HK H. destruct Hx as [sx | mx ex Bx]; destruct Hy as [sy | my ey By]; cbn [sval].
  - lia.
  - apply bounded_canon in By as [_ By]. pose proof (val_pos K my ey ltac:(lia)). lia.
  - discriminate H.
  - apply bounded_canon in Bx as [Cx Bx]. apply bounded_canon in By as [Cy By].
    unfold SFleb, SFcompare in H.
    destruct (Z.compare_spec ex ey) as [Heq | Hlt | Hgt].
    + subst ey. change (Pos.compare_cont Eq mx my) with (Pos.compare mx my) in H.
      unfold val. apply Z.mul_le_mono_nonneg_r; [apply Z.lt_le_incl, pow2_pos; lia | ].
      destruct (Pos.compare_spec mx my); [lia | lia | discriminate H].
    + apply Z.lt_le_incl, canon_lt; [assumption | assumption | lia | assumption].
    + discriminate H.
Qed.

(** Multiplication by a positive normal constant. *)
Lemma SFmul_nn x mc ec :
  nn x -> bounded prec emax mc ec = true -> Zpos (digits2_pos mc) = 53 ->
  (exists s, SFmul prec emax x (S754_finite false mc ec) = S754_zero s /\ sval 1074 x = 0) \/
  (exists m e, SFmul prec emax x (S754_finite false mc ec) = rnd false m e /\
     0 <= e + 2148 /\ e <= fexp64 (Zpos (digits2_pos m) + e) /\
     val 2148 (Zpos m) e = sval 1074 x * val 1074 (Zpos mc) ec).
Proof.
  intros Hx Bc Dc. destruct Hx as [sx | mx ex Bx].
  - left. exists (xorb sx false). split; reflexivity.
  - right. exists (mx * mc)%positive, (ex + ec).
    apply bounded_canon in Bx as [Cx Bx]. apply bounded_canon in Bc as [Cc Bc].
    assert (Ht : ex + ec <= fexp64 (Zpos (digits2_pos (mx * mc)) + (ex + ec))).
    { pose proof (digits2_pos_bounds mc) as [Lc _]. rewrite Dc in Lc.
      assert (52 < Zpos (digits2_pos (mx * mc))).
      { apply digits2_pos_ge; [lia | ]. rewrite Pos2Z.inj_mul.
        change (53 - 1) with 52 in Lc. nia. }
      unfold fexp64. lia. }
    split; [ | split; [lia | split; [exact Ht | ]]].
    + cbn [SFmul xorb]. apply binary_round_aux_exact. exact Ht.
    + cbn [sval]. unfold val. rewrite Pos2Z.inj_mul.
      replace (ex + ec + 2148) with ((ex + 1074) + (ec + 1074)) by lia.
      rewrite (pow2_split (ex + 1074) (ec + 1074)) by lia. ring.
Qed.

(** Alignment of a mantissa to a smaller exponent. *)
Lemma pos_iter_xO m d : Zpos (Pos.iter xO m d) = Zpos m * 2 ^ Zpos d.
Proof.
  induction d as [ | d IH] using Pos.peano_ind.
  - cbn [Pos.iter]. rewrite Pos2Z.inj_xO. change (2 ^ 1) with 2. ring.
  - rewrite Pos.iter_succ, Pos2Z.inj_xO, IH, Pos2Z.inj_succ, Z.pow_succ_r by lia. ring.
Qed.

Lemma shl_align_spec m e e' :
  snd (shl_align m e e') = Z.min e e' /\
  Zpos (fst (shl_align m e e')) = Zpos m * 2 ^ (e - snd (shl_align m e e')).
Proof.
  unfold shl_align. destruct (e' - e) as [ | d | d] eqn:Hd; cbn [fst snd].
  - split; [lia | ]. rewrite Z.sub_diag, Z.pow_0_r. lia.
  - split; [lia | ]. rewrite Z.sub_diag, Z.pow_0_r. lia.
  - split; [lia | ]. rewrite pos_iter_xO. f_equal. f_equal. lia.
Qed.

Lemma digits2_pos_shift m p k :
  0 <= k -> Zpos p = Zpos m * 2 ^ k ->
  Zpos (digits2_pos p) = Zpos (digits2_pos m) + k.
Proof.
  intros Hk Hp. apply digits2_pos_unique. rewrite Hp.
  pose proof (digits2_pos_bounds m) as [L U]. pose proof (pow2_pos k Hk).
  replace (Zpos (digits2_pos m) + k - 1) with ((Zpos (digits2_pos m) - 1) + k) by lia.
  rewrite (pow2_split (Zpos (digits2_pos m) - 1) k), (pow2_split (Zpos (digits2_pos m)) k) by lia.
  nia.
Qed.

Lemma binary_round_rnd s m e :
  exists m' e', binary_round prec emax s m e = rnd s m' e' /\
    e' <= fexp64 (Zpos (digits2_pos m') + e') /\
    e' = Z.min e (fexp64 (Zpos (digits2_pos m) + e)) /\
    Zpos m' = Zpos m * 2 ^ (e - e').
Proof.
  unfold binary_round. rewrite fexp64_eq.
  pose proof (shl_align_spec m e (fexp64 (Zpos (digits2_pos m) + e))) as [He Hm].
  destruct (shl_align m e (fexp64 (Zpos (digits2_pos m) + e))) as [mz ez]. cbn [fst snd] in *.
  exists mz, ez.
  assert (Hd : Zpos (digits2_pos mz) = Zpos (digits2_pos m) + (e - ez))
    by (apply digits2_pos_shift; [lia | exact Hm]).
  assert (Ht : ez <= fexp64 (Zpos (digits2_pos mz) + ez)).
  { rewrite Hd. replace (Zpos (digits2_pos m) + (e - ez) + ez) with (Zpos (digits2_pos m) + e) by lia.
    lia. }
  split; [ | split; [exact Ht | split; [exact He | exact Hm]]].
  apply binary_round_aux_exact. exact Ht.
Qed.

(** Addition of two non-negative finite floats rounds their exact sum. *)
Lemma SFadd_nn x y :
  nn x -> nn y ->
  (exists s, SFadd prec emax x y = S754_zero s /\ sval 1074 x + sval 1074 y = 0) \/
  (exists m e, SFadd prec emax x y = rnd false m e /\
     0 <= e + 1074 /\ e <= fexp64 (Zpos (digits2_pos m) + e) /\
     val 1074 (Zpos m) e = sval 1074 x + sval 1074 y).
Proof.
  intros Hx Hy. destruct Hx as [sx | mx ex Bx]; destruct Hy as [sy | my ey By].
  - left. destruct sx, sy; eexists; split; reflexivity.
  - right. exists my, ey. rewrite (rnd_id false my ey By).
    apply bounded_canon in By as [Cy By]. unfold canon in Cy. cbn [Zdigits2] in Cy.
    cbn [SFadd sval]. repeat split; lia.
  - right. exists mx, ex. rewrite (rnd_id false mx ex Bx).
    apply bounded_canon in Bx as [Cx Bx]. unfold canon in Cx. cbn [Zdigits2] in Cx.
    cbn [SFadd sval]. repeat split; lia.
  - right. apply bounded_canon in Bx as [Cx Bx]. apply bounded_canon in By as [Cy By].
    cbn [SFadd cond_Zopp sval].
    set (ez := Z.min ex ey).
    pose proof (shl_align_spec mx ex ez) as [Sx Vx].
    pose proof (shl_align_spec my ey ez) as [Sy Vy].
    rewrite Sx in Vx. rewrite Sy in Vy.
    replace (Z.min ex ez) with ez in Vx by lia. replace (Z.min ey ez) with ez in Vy by lia.
    set (ax := fst (shl_align mx ex ez)) in *. set (ay := fst (shl_align my ey ez)) in *.
    change (Zpos ax + Zpos ay) with (Zpos (ax + ay)). cbn [binary_normalize].
    destruct (binary_round_rnd false (ax + ay) ez) as (m & e & -> & Ht & He & Hm).
    exists m, e.
    pose proof (fexp64_ge (Zpos (digits2_pos (ax + ay)) + ez)).
    split; [reflexivity | split; [lia | split; [exact Ht | ]]].
    unfold val. rewrite Hm, Pos2Z.inj_add, Vx, Vy.
    replace (ex + 1074) with ((ex - ez) + (ez - e) + (e + 1074)) by lia.
    replace (ey + 1074) with ((ey - ez) + (ez - e) + (e + 1074)) by lia.
    rewrite (pow2_split ((ex - ez) + (ez - e)) (e + 1074)) by lia.
    rewrite (pow2_split ((ey - ez) + (ez - e)) (e + 1074)) by lia.
    rewrite (pow2_split (ex - ez) (ez - e)) by lia.
    rewrite (pow2_split (ey - ez) (ez - e)) by lia.
    ring.
Qed.

Lemma SFleb_zero_zero s s' : SFleb (S754_zero s) (S754_zero s') = true.
Proof. reflexivity. Qed.

Theorem SFmul_mono x y mc ec :
  nn x -> nn y -> SFleb x y = true ->
  bounded prec emax mc ec = true -> Zpos (digits2_pos mc) = 53 ->
  SFleb (S754_zero false) (SFmul prec emax x (S754_finite false mc ec)) = true /\
  SFleb (SFmul prec emax x (S754_finite false mc ec))
        (SFmul prec emax y (S754_finite false mc ec)) = true.
Proof.
  intros Hx Hy Hle Bc Dc.
  pose proof (SFleb_sval 1074 x y Hx Hy ltac:(lia) Hle) as HV.
  assert (Hcpos : 0 < val 1074 (Zpos mc) ec).
  { apply val_pos. apply bounded_canon in Bc as [_ Bc]. lia. }
  assert (Hx0 : 0 <= sval 1074 x).
  { destruct Hx as [ | m e B]; cbn [sval]; [lia | ].
    apply bounded_canon in B as [_ B]. apply Z.lt_le_incl, val_pos. lia. }
  destruct (SFmul_nn x mc ec Hx Bc Dc) as [(s1 & -> & V1) | (m1 & e1 & -> & K1 & T1 & V1)];
    destruct (SFmul_nn y mc ec Hy Bc Dc) as [(s2 & -> & V2) | (m2 & e2 & -> & K2 & T2 & V2)].
  - split; reflexivity.
  - split; [reflexivity | apply zero_le_rnd; exact T2].
  - exfalso. pose proof (val_pos 2148 m1 e1 K1). nia.
  - split; [apply zero_le_rnd; exact T1 | ].
    apply (rnd_le 2148); try assumption. rewrite V1, V2.
    apply Z.mul_le_mono_nonneg_r; lia.
Qed.

Theorem SFadd_mono a a' b b' :
  nn a -> nn a' -> nn b -> nn b' -> SFleb a a' = true -> SFleb b b' = true ->
  SFleb (S754_zero false) (SFadd prec emax a b) = true /\
  SFleb (SFadd prec emax a b) (SFadd prec emax a' b') = true.
Proof.
  intros Ha Ha' Hb Hb' La Lb.
  pose proof (SFleb_sval 1074 a a' Ha Ha' ltac:(lia) La) as VA.
  pose proof (SFleb_sval 1074 b b' Hb Hb' ltac:(lia) Lb) as VB.
  destruct (SFadd_nn a b Ha Hb) as [(s1 & -> & V1) | (m1 & e1 & -> & K1 & T1 & V1)];
    destruct (SFadd_nn a' b' Ha' Hb') as [(s2 & -> & V2) | (m2 & e2 & -> & K2 & T2 & V2)].
  - split; reflexivity.
  - split; [reflexivity | apply zero_le_rnd; exact T2].
  - exfalso. pose proof (val_pos 1074 m1 e1 K1). lia.
  - split; [apply zero_le_rnd; exact T1 | ].
    apply (rnd_le 1074); try assumption. lia.
Qed.

Lemma nn_b_sound f : nn_b f = true -> nn f.
Proof.
  destruct f as [s | s | | [ | ] m e]; cbn [nn_b]; try discriminate; intros H.
  - constructor.
  - constructor. exact H.
Qed.

Lemma Prim2SF_0 : Prim2SF 0 = S754_zero false.
Proof. reflexivity. Qed.

Lemma float_le_nn x y :
  (0 <=? x)%float = true -> (x <=? y)%float = true -> nonneg_finite y = true ->
  nn (Prim2SF x).
Proof.
  rewrite !FloatAxioms.leb_spec, Prim2SF_0. unfold nonneg_finite. intros H0 H1 Hy.
  apply nn_b_sound in Hy. pose proof (Prim2SF_valid x) as Vx.
  destruct (Prim2SF x) as [s | s | | s m e].
  - constructor.
  - destruct s; [discriminate H0 | ]. destruct Hy; discriminate H1.
  - discriminate H0.
  - destruct s; [discriminate H0 | ]. constructor. exact Vx.
Qed.

Theorem float_mul_mono x y c :
  (0 <=? x)%float = true -> (x <=? y)%float = true -> nonneg_finite y = true ->
  pos_normal c = true ->
  (0 <=? x * c)%float = true /\ (x * c <=? y * c)%float = true.
Proof.
  intros H0 H1 Hy Hc. pose proof (float_le_nn x y H0 H1 Hy) as Hx.
  rewrite !FloatAxioms.leb_spec, !FloatAxioms.mul_spec, Prim2SF_0. rewrite FloatAxioms.leb_spec in H1.
  unfold nonneg_finite in Hy. apply nn_b_sound in Hy.
  unfold pos_normal in Hc. pose proof (Prim2SF_valid c) as Vc. unfold SF64mul.
  destruct (Prim2SF c) as [s | s | | [ | ] mc ec]; try discriminate Hc.
  apply Z.eqb_eq in Hc. apply SFmul_mono; assumption.
Qed.

Theorem float_add_mono a a' b b' :
  (0 <=? a)%float = true -> (a <=? a')%float = true -> nonneg_finite a' = true ->
  (0 <=? b)%float = true -> (b <=? b')%float = true -> nonneg_finite b' = true ->
  (0 <=? a + b)%float = true /\ (a + b <=? a' + b')%float = true.
Proof.
  intros A0 A1 Ha' B0 B1 Hb'.
  pose proof (float_le_nn a a' A0 A1 Ha') as Ha. pose proof (float_le_nn b b' B0 B1 Hb') as Hb.
  rewrite !FloatAxioms.leb_spec, !FloatAxioms.add_spec, Prim2SF_0. rewrite FloatAxioms.leb_spec in A1, B1.
  apply nn_b_sound in Ha', Hb'. unfold SF64add. apply SFadd_mono; assumption.
Qed.

(** Comparisons of numbers that are not NaN. *)
Lemma SFcompare_swap x y : SFcompare y x = option_map CompOpp (SFcompare x y).
Proof.
  destruct x as [sx | sx | | sx mx ex], y as [sy | sy | | sy my ey]; cbn [SFcompare option_map];
    try reflexivity;
    try (destruct sx; reflexivity); try (destruct sy; reflexivity);
    try (destruct sx, sy; reflexivity).
  destruct sx, sy; cbn [CompOpp]; try reflexivity;
    rewrite (Z.compare_antisym ex ey);
    change (Pos.compare_cont Eq my mx) with (Pos.compare my mx);
    change (Pos.compare_cont Eq mx my) with (Pos.compare mx my);
    rewrite (Pos.compare_antisym mx my);
    destruct (ex ?= ey); cbn [CompOpp]; try reflexivity;
    destruct (Pos.compare mx my); reflexivity.
Qed.


Lemma SFeqb_refl f : f <> S754_nan -> SFeqb f f = true.
Proof.
  unfold SFeqb. destruct f as [s | s | | s m e]; cbn [SFcompare]; intros H.
  - reflexivity.
  - destruct s; reflexivity.
  - congruence.
  - rewrite Z.compare_refl.
    change (Pos.compare_cont Eq m m) with (Pos.compare m m). rewrite Pos.compare_refl.
    destruct s; reflexivity.
Qed.

Lemma is_nan_spec x : is_nan x = false <-> Prim2SF x <> S754_nan.
Proof.
  unfold is_nan. rewrite FloatAxioms.eqb_spec. split.
  - intros H E. rewrite E in H. discriminate H.
  - intros H. rewrite SFeqb_refl by exact H. reflexivity.
Qed.


Lemma SFcompare_opp x y c :
  SFcompare x y = Some c -> SFcompare y x = Some (CompOpp c).
Proof. intros H. rewrite (SFcompare_swap x y), H. reflexivity. Qed.





End RoundingFacts.

(** * Facts about primitive floats used by the scoring formulas *)

Module FloatFacts.

Import Rounding RoundingFacts.

Lemma SFmul_comm x y : SFmul prec emax x y = SFmul prec emax y x.
Proof.
  destruct x as [sx | sx | | sx mx ex], y as [sy | sy | | sy my ey]; cbn [SFmul];
    rewrite ?(xorb_comm sx sy); try reflexivity.
  rewrite (Pos.mul_comm mx my), (Z.add_comm ex ey). reflexivity.
Qed.

Lemma float_mul_comm x y : (x * y)%float = (y * x)%float.
Proof.
  apply Prim2SF_inj. rewrite !FloatAxioms.mul_spec. apply SFmul_comm.
Qed.

Lemma float_eqb_ge x y : (x =? y)%float = true -> float_ge x y = true.
Proof.
  unfold float_ge. rewrite FloatAxioms.eqb_spec, FloatAxioms.leb_spec.
  unfold SFeqb, SFleb. destruct (SFcompare (Prim2SF x) (Prim2SF y)) as [c | ] eqn:Hc;
    [ | discriminate].
  rewrite (SFcompare_opp _ _ _ Hc). destruct c; [reflexivity | discriminate | discriminate].
Qed.

Lemma float_ltb_not_ge x y : (x <? y)%float = true -> float_ge x y = false.
Proof.
  unfold float_ge. rewrite FloatAxioms.ltb_spec, FloatAxioms.leb_spec.
  unfold SFltb, SFleb. destruct (SFcompare (Prim2SF x) (Prim2SF y)) as [c | ] eqn:Hc;
    [ | discriminate].
  rewrite (SFcompare_opp _ _ _ Hc). destruct c; [discriminate | reflexivity | discriminate].
Qed.

Lemma float_leb_not_lt x y : (x <=? y)%float = true -> (y <? x)%float = false.
Proof.
  rewrite FloatAxioms.ltb_spec, FloatAxioms.leb_spec.
  unfold SFltb, SFleb. destruct (SFcompare (Prim2SF x) (Prim2SF y)) as [c | ] eqn:Hc;
    [ | discriminate].
  rewrite (SFcompare_opp _ _ _ Hc). destruct c; [reflexivity | reflexivity | discriminate].
Qed.

(** The weighted sums keep scores of the unit interval in the unit
    interval: each product is at most its weight, and the weights sum to
    one, also after rounding. *)
Theorem scores_in_unit r c a k :
  in_unit r -> in_unit c -> in_unit a -> in_unit k ->
  in_unit (evidence_score_of r c a) /\
  in_unit (combined_confidence_of (evidence_score_of r c a) k).
Proof.
  intros [R0 R1] [C0 C1] [A0 A1] [K0 K1].
  destruct (float_mul_mono r 1 0.4 R0 R1 eq_refl eq_refl) as [R0' R1'].
  destruct (float_mul_mono c 1 0.3 C0 C1 eq_refl eq_refl) as [C0' C1'].
  destruct (float_mul_mono a 1 0.3 A0 A1 eq_refl eq_refl) as [A0' A1'].
  destruct (float_mul_mono k 1 0.6 K0 K1 eq_refl eq_refl) as [K0' K1'].
  destruct (float_add_mono _ _ _ _ R0' R1' eq_refl C0' C1' eq_refl) as [S0 S1].
  destruct (float_add_mono _ _ _ _ S0 S1 eq_refl A0' A1' eq_refl) as [E0 E1].
  assert (HE : in_unit (evidence_score_of r c a)) by (split; [exact E0 | exact E1]).
  split; [exact HE | ].
  destruct (float_mul_mono _ 1 0.4 E0 E1 eq_refl eq_refl) as [W0 W1].
  destruct (float_add_mono _ _ _ _ W0 W1 eq_refl K0' K1' eq_refl) as [F0 F1].
  split; [exact F0 | exact F1].
Qed.

End FloatFacts.

(** * The result combiner *)

Import Examples.

Section CombineFacts.

Context (self : MilestoneVerifierAgent) (env : Env).

(** On float scores [combine_results] returns, and its result is made of
    [evidence_score_of], [combined_confidence_of] and [verdict_of]. *)
Lemma combine_results_floats (ea av : dict) (r c a k : float) :
  dict_get ea "relevance" (VFloat 0.5) = VFloat r ->
  dict_get ea "completeness" (VFloat 0.5) = VFloat c ->
  dict_get ea "authenticity" (VFloat 0.5) = VFloat a ->
  dict_get av "confidence" (VFloat 0.5) = VFloat k ->
  let combined := combined_confidence_of (evidence_score_of r c a) k in
  combine_results self env ea av =
  Ok ({[ "verdict" := VStr (verdict_of (confidence_threshold self) combined
                              (truthy (dict_get av "approved" (VBool false))));
         "confidence" := VFloat combined;
         "reasoning" :=
           VStr (str (repr env) (dict_get ea "reasoning" (VStr ""))
                   ++ ". " ++ str (repr env) (dict_get av "reasoning" (VStr "")));
         "details" := VDict {[ "evidence_analysis" := VDict ea;
                               "agent_verdict" := VDict av;
                               "combined_score" := VFloat combined ]} ]} : dict).
Proof.
  intros Hr Hc Ha Hk combined. unfold combine_results.
  rewrite Hr, Hc, Ha, Hk. reflexivity.
Qed.

End CombineFacts.


(** C1: on the sub-scores and the agent confidence it reads,
    [combine_results] returns as [confidence] the combined confidence
    0.4 * evidence_score + 0.6 * agent confidence, where evidence_score is
    0.4 * relevance + 0.3 * completeness + 0.3 * authenticity, with these
    fixed weights. *)
Theorem combine_results_confidence (self : MilestoneVerifierAgent) (env : Env)
    (ea av : dict) (r c a k : float) :
  dict_get ea "relevance" (VFloat 0.5) = VFloat r ->
  dict_get ea "completeness" (VFloat 0.5) = VFloat c ->
  dict_get ea "authenticity" (VFloat 0.5) = VFloat a ->
  dict_get av "confidence" (VFloat 0.5) = VFloat k ->
  exists res,
    combine_results self env ea av = Ok res /\
    res !! "confidence" =
      Some (VFloat (spec_combined_confidence (spec_evidence_score r c a) k)).
Proof.
  intros Hr Hc Ha Hk.
  rewrite (combine_results_floats self env ea av r c a k Hr Hc Ha Hk).
  eexists. split; [reflexivity | ].
  unfold spec_combined_confidence, spec_evidence_score.
  rewrite (FloatFacts.float_mul_comm 0.4 r), (FloatFacts.float_mul_comm 0.3 c),
    (FloatFacts.float_mul_comm 0.3 a), (FloatFacts.float_mul_comm 0.6 k),
    (FloatFacts.float_mul_comm 0.4 (r * 0.4 + c * 0.3 + a * 0.3)).
  reflexivity.
Qed.

Lemma combine_results_confidence_witness :
  exists res,
    combine_results (agent_with unreachable) local_env
      (analysis 0.5 0.25 1) (verdict true 0.75) = Ok res /\
    res !! "confidence" =
      Some (VFloat (spec_combined_confidence (spec_evidence_score 0.5 0.25 1) 0.75)).
Proof.
  apply (combine_results_confidence (agent_with unreachable) local_env
           (analysis 0.5 0.25 1) (verdict true 0.75) 0.5 0.25 1 0.75);
    reflexivity.
Defined.

(** C2: the verdict is "approved" exactly when the combined confidence
    is at least the threshold and the agent approved; a combined
    confidence equal to the threshold counts. *)
Theorem combine_results_approved_iff (self : MilestoneVerifierAgent) (env : Env)
    (ea av : dict) (r c a k : float) (b : bool) :
  dict_get ea "relevance" (VFloat 0.5) = VFloat r ->
  dict_get ea "completeness" (VFloat 0.5) = VFloat c ->
  dict_get ea "authenticity" (VFloat 0.5) = VFloat a ->
  dict_get av "confidence" (VFloat 0.5) = VFloat k ->
  dict_get av "approved" (VBool false) = VBool b ->
  let combined := combined_confidence_of (evidence_score_of r c a) k in
  exists res,
    combine_results self env ea av = Ok res /\
    (res !! "verdict" = Some (VStr "approved") <->
       float_ge combined (confidence_threshold self) = true /\ b = true) /\
    ((combined =? confidence_threshold self)%float = true -> b = true ->
       res !! "verdict" = Some (VStr "approved")).
Proof.
  intros Hr Hc Ha Hk Hb combined.
  rewrite (combine_results_floats self env ea av r c a k Hr Hc Ha Hk). fold combined.
  rewrite Hb. cbn [truthy].
  eexists. split; [reflexivity | ].
  change (({[ "verdict" := VStr (verdict_of (confidence_threshold self) combined b);
              "confidence" := VFloat combined;
              "reasoning" := _; "details" := _ ]} : dict) !! "verdict")
    with (Some (VStr (verdict_of (confidence_threshold self) combined b))).
  unfold verdict_of. split.
  - destruct (float_ge combined (confidence_threshold self)), b; cbn [andb negb orb];
      try destruct (combined <? 1 - confidence_threshold self)%float;
      split; intros H; try discriminate H; try (destruct H; discriminate); auto.
  - intros Heq ->. rewrite (FloatFacts.float_eqb_ge _ _ Heq). reflexivity.
Qed.

Lemma combine_results_approved_iff_witness :
  exists res,
    combine_results (agent 1 unreachable) local_env
      (analysis 1 1 1) (verdict true 1) = Ok res /\
    (res !! "verdict" = Some (VStr "approved") <->
       float_ge (combined_confidence_of (evidence_score_of 1 1 1) 1) 1 = true /\ true = true) /\
    ((combined_confidence_of (evidence_score_of 1 1 1) 1 =? 1)%float = true -> true = true ->
       res !! "verdict" = Some (VStr "approved")).
Proof.
  apply (combine_results_approved_iff (agent 1 unreachable) local_env
           (analysis 1 1 1) (verdict true 1) 1 1 1 1 true);
    reflexivity.
Defined.




(** C5, refuted: the pipeline does not clamp.  A knowledge service that
    answers with a relevance of 2.5 leads to a final confidence above 1. *)
Lemma combined_confidence_not_clamped :
  exists res x,
    verify_milestone
      (agent_with (fun _ _ => Ok (VDict (analysis 2.5 1 1)))) local_env
      {[ "milestone_id" := VStr "m-1"; "description" := VStr "Prototype delivered" ]} = Ok res /\
    res !! "confidence" = Some (VFloat x) /\
    (x <=? 1)%float = false.
Proof.
  eexists. eexists. split; [vm_compute; reflexivity | ]. split; reflexivity.
Qed.

(** C5, amended: when the three sub-scores and the agent confidence are
    floats of the unit interval, [combine_results] returns, and both the
    evidence score and the combined confidence it reports lie in the unit
    interval. *)
Theorem combined_confidence_in_unit (self : MilestoneVerifierAgent) (env : Env)
    (ea av : dict) (r c a k : float) :
  dict_get ea "relevance" (VFloat 0.5) = VFloat r ->
  dict_get ea "completeness" (VFloat 0.5) = VFloat c ->
  dict_get ea "authenticity" (VFloat 0.5) = VFloat a ->
  dict_get av "confidence" (VFloat 0.5) = VFloat k ->
  in_unit r -> in_unit c -> in_unit a -> in_unit k ->
  in_unit (evidence_score_of r c a) /\
  exists res x,
    combine_results self env ea av = Ok res /\
    res !! "confidence" = Some (VFloat x) /\
    x = combined_confidence_of (evidence_score_of r c a) k /\
    in_unit x.
Proof.
  intros Hr Hc Ha Hk Ur Uc Ua Uk.
  destruct (FloatFacts.scores_in_unit r c a k Ur Uc Ua Uk) as [HE HC].
  split; [exact HE | ].
  rewrite (combine_results_floats self env ea av r c a k Hr Hc Ha Hk).
  eexists. eexists. split; [reflexivity | ]. split; [reflexivity | ]. split; [reflexivity | exact HC].
Qed.

Lemma combined_confidence_in_unit_witness :
  in_unit (evidence_score_of 1 1 1) /\
  exists res x,
    combine_results (agent_with unreachable) local_env (analysis 1 1 1) (verdict true 1) = Ok res /\
    res !! "confidence" = Some (VFloat x) /\
    x = combined_confidence_of (evidence_score_of 1 1 1) 1 /\
    in_unit x.
Proof.
  apply (combined_confidence_in_unit (agent_with unreachable) local_env
           (analysis 1 1 1) (verdict true 1) 1 1 1 1);
    try reflexivity; split; reflexivity.
Defined.

(** C10: the [confidence] of the result and [details.combined_score] are
    the same number, and [details] carries the two arguments unchanged;
    the result exists whenever the scores read are floats. *)
Theorem combine_results_details (self : MilestoneVerifierAgent) (env : Env) (ea av : dict) :
  (forall res, combine_results self env ea av = Ok res ->
     exists x details,
       res !! "confidence" = Some (VFloat x) /\
       res !! "details" = Some (VDict details) /\
       details !! "combined_score" = Some (VFloat x) /\
       details !! "evidence_analysis" = Some (VDict ea) /\
       details !! "agent_verdict" = Some (VDict av)) /\
  (forall r c a k,
     dict_get ea "relevance" (VFloat 0.5) = VFloat r ->
     dict_get ea "completeness" (VFloat 0.5) = VFloat c ->
     dict_get ea "authenticity" (VFloat 0.5) = VFloat a ->
     dict_get av "confidence" (VFloat 0.5) = VFloat k ->
     exists res, combine_results self env ea av = Ok res).
Proof.
  split.
  - intros res. unfold combine_results.
    destruct (mul_float (dict_get ea "relevance" (VFloat 0.5)) 0.4) as [x1 | e1]; cbn [bind];
      [ | discriminate].
    destruct (mul_float (dict_get ea "completeness" (VFloat 0.5)) 0.3) as [x2 | e2]; cbn [bind];
      [ | discriminate].
    destruct (mul_float (dict_get ea "authenticity" (VFloat 0.5)) 0.3) as [x3 | e3]; cbn [bind];
      [ | discriminate].
    destruct (mul_float (dict_get av "confidence" (VFloat 0.5)) 0.6) as [x4 | e4]; cbn [bind];
      [ | discriminate].
    intros H. injection H as <-.
    eexists. eexists. repeat split; reflexivity.
  - intros r c a k Hr Hc Ha Hk.
    rewrite (combine_results_floats self env ea av r c a k Hr Hc Ha Hk). eexists. reflexivity.
Qed.

Lemma combine_results_details_witness :
  exists x details,
    ({[ "verdict" := VStr "rejected";
        "confidence" := VFloat 0.5;
        "reasoning" := VStr "Evidence analysis completed. Agent analysis completed";
        "details" := VDict {[ "evidence_analysis" := VDict (analysis 0.5 0.5 0.5);
                              "agent_verdict" := VDict (verdict false 0.5);
                              "combined_score" := VFloat 0.5 ]} ]} : dict) !! "confidence"
      = Some (VFloat x) /\
    ({[ "verdict" := VStr "rejected";
        "confidence" := VFloat 0.5;
        "reasoning" := VStr "Evidence analysis completed. Agent analysis completed";
        "details" := VDict {[ "evidence_analysis" := VDict (analysis 0.5 0.5 0.5);
                              "agent_verdict" := VDict (verdict false 0.5);
                              "combined_score" := VFloat 0.5 ]} ]} : dict) !! "details"
      = Some (VDict details) /\
    details !! "combined_score" = Some (VFloat x) /\
    details !! "evidence_analysis" = Some (VDict (analysis 0.5 0.5 0.5)) /\
    details !! "agent_verdict" = Some (VDict (verdict false 0.5)).
Proof.
  apply (proj1 (combine_results_details (agent_with unreachable) local_env
                  (analysis 0.5 0.5 0.5) (verdict false 0.5))).
  reflexivity.
Defined.

(** * The mock verdict generator *)

(** The mock response on a request whose context holds a description
    text and an evidence analysis with float scores. *)
Lemma get_mock_agent_response_floats (self : MilestoneVerifierAgent)
    (request ctx ea : dict) (d : string) (r c : float) :
  dict_get request "context" (VDict ∅) = VDict ctx ->
  dict_get ctx "description" (VStr "") = VStr d ->
  dict_get ctx "evidence_analysis" (VDict ∅) = VDict ea ->
  dict_get ea "relevance" (VFloat 0.5) = VFloat r ->
  dict_get ea "completeness" (VFloat 0.5) = VFloat c ->
  get_mock_agent_response self request
  = Ok (spec_mock_verdict (confidence_threshold self) d r c).
Proof.
  intros Hctx Hd Hea Hr Hc. unfold get_mock_agent_response.
  rewrite Hctx. cbn [get bind]. rewrite Hd, Hea.
  cbn [get bind truthy len]. rewrite Hr, Hc. cbn [gt_float format_2f bind].
  unfold spec_mock_verdict, spec_mock_confidence.
  destruct (negb (String.eqb d "")); cbn [bind andb]; reflexivity.
Qed.

(** C4: the mock verdict is the function of the description, the
    evidence analysis and the threshold that the specification gives, so
    that requests agreeing on these yield the same verdict. *)
Theorem mock_response_is_spec (self : MilestoneVerifierAgent)
    (request ctx ea : dict) (d : string) (r c : float) :
  dict_get request "context" (VDict ∅) = VDict ctx ->
  dict_get ctx "description" (VStr "") = VStr d ->
  dict_get ctx "evidence_analysis" (VDict ∅) = VDict ea ->
  dict_get ea "relevance" (VFloat 0.5) = VFloat r ->
  dict_get ea "completeness" (VFloat 0.5) = VFloat c ->
  get_mock_agent_response self request
    = Ok (spec_mock_verdict (confidence_threshold self) d r c) /\
  (forall (self' : MilestoneVerifierAgent) (request' ctx' : dict),
     confidence_threshold self' = confidence_threshold self ->
     dict_get request' "context" (VDict ∅) = VDict ctx' ->
     dict_get ctx' "description" (VStr "") = VStr d ->
     dict_get ctx' "evidence_analysis" (VDict ∅) = VDict ea ->
     get_mock_agent_response self' request' = get_mock_agent_response self request).
Proof.
  intros Hctx Hd Hea Hr Hc. split.
  - exact (get_mock_agent_response_floats self request ctx ea d r c Hctx Hd Hea Hr Hc).
  - intros self' request' ctx' Hthr Hctx' Hd' Hea'.
    rewrite (get_mock_agent_response_floats self request ctx ea d r c Hctx Hd Hea Hr Hc).
    rewrite (get_mock_agent_response_floats self' request' ctx' ea d r c Hctx' Hd' Hea' Hr Hc).
    rewrite Hthr. reflexivity.
Qed.

Lemma mock_response_is_spec_witness :
  let self := agent_with unreachable in
  let ea := analysis 0.75 0.5 0.5 in
  let ctx : dict := {[ "description" := VStr "Beta released"; "evidence_analysis" := VDict ea ]} in
  let request : dict := {[ "context" := VDict ctx ]} in
  get_mock_agent_response self request
    = Ok (spec_mock_verdict (confidence_threshold self) "Beta released" 0.75 0.5) /\
  (forall (self' : MilestoneVerifierAgent) (request' ctx' : dict),
     confidence_threshold self' = confidence_threshold self ->
     dict_get request' "context" (VDict ∅) = VDict ctx' ->
     dict_get ctx' "description" (VStr "") = VStr "Beta released" ->
     dict_get ctx' "evidence_analysis" (VDict ∅) = VDict ea ->
     get_mock_agent_response self' request' = get_mock_agent_response self request).
Proof.
  intros self ea ctx request.
  apply (mock_response_is_spec self request ctx ea "Beta released" 0.75 0.5); reflexivity.
Defined.

(** C9: whenever the mock generator returns, its confidence lies between
    0.5 and 1.0; and it returns on every request whose context holds a
    description text and an evidence analysis with float scores. *)
Theorem mock_confidence_range (self : MilestoneVerifierAgent) (request : dict) :
  (forall res, get_mock_agent_response self request = Ok res ->
     exists x, res !! "confidence" = Some (VFloat x) /\
       (0.5 <=? x)%float = true /\ (x <=? 1)%float = true) /\
  (forall (ctx ea : dict) (d : string) (r c : float),
     dict_get request "context" (VDict ∅) = VDict ctx ->
     dict_get ctx "description" (VStr "") = VStr d ->
     dict_get ctx "evidence_analysis" (VDict ∅) = VDict ea ->
     dict_get ea "relevance" (VFloat 0.5) = VFloat r ->
     dict_get ea "completeness" (VFloat 0.5) = VFloat c ->
     exists res, get_mock_agent_response self request = Ok res).
Proof.
  split.
  - intros res. unfold get_mock_agent_response.
    repeat match goal with
           | |- context [bind ?m _] =>
               let E := fresh "E" in
               destruct m eqn:E; cbn [bind]; [ | discriminate]
           end.
    intros H. injection H as <-. eexists. split; [reflexivity | ].
    repeat match goal with
           | b : bool |- _ => destruct b
           end; split; reflexivity.
  - intros ctx ea d r c Hctx Hd Hea Hr Hc.
    rewrite (get_mock_agent_response_floats self request ctx ea d r c Hctx Hd Hea Hr Hc).
    eexists. reflexivity.
Qed.

Lemma mock_confidence_range_witness :
  exists x,
    spec_mock_verdict 0.8 description80 0.9 0.8 !! "confidence" = Some (VFloat x) /\
    (0.5 <=? x)%float = true /\ (x <=? 1)%float = true.
Proof.
  apply (proj1 (mock_confidence_range (agent_with unreachable)
                  (agent_request (agent_with unreachable) (VStr "m-1") (VStr "0xC0FFEE")
                     (analysis 0.9 0.8 0.5) (VStr description80)))).
  reflexivity.
Defined.

(** * Error handling *)

(** C6: [analyze_evidence] always returns a result; when the call to the
    knowledge service raises, the result has the three sub-scores at 0.5,
    a reasoning text that ends with the error text, and empty metadata. *)
Theorem analyze_evidence_never_fails (self : MilestoneVerifierAgent)
    (evidence_hash evidence_url description : value) :
  (exists res, analyze_evidence self evidence_hash evidence_url description = Ok res) /\
  (forall e,
     metta_client_query self (evidence_query evidence_hash evidence_url description)
       "milestone_verification" = Raise e ->
     analyze_evidence self evidence_hash evidence_url description
     = Ok ({[ "relevance" := VFloat 0.5;
              "completeness" := VFloat 0.5;
              "authenticity" := VFloat 0.5;
              "reasoning" := VStr ("Evidence analysis failed: " ++ exn_msg e);
              "metadata" := VDict ∅ ]} : dict)).
Proof.
  unfold analyze_evidence. split.
  - destruct (metta_client_query self _ _) as [response | e]; cbn [bind try_except];
      [ | eexists; reflexivity].
    destruct response; cbn [get bind try_except]; eexists; reflexivity.
  - intros e He. rewrite He. reflexivity.
Qed.

Lemma analyze_evidence_never_fails_witness :
  analyze_evidence (agent_with unreachable) (VStr "QmHash") VNone (VStr "Prototype delivered")
  = Ok ({[ "relevance" := VFloat 0.5;
           "completeness" := VFloat 0.5;
           "authenticity" := VFloat 0.5;
           "reasoning" := VStr "Evidence analysis failed: knowledge graph unreachable";
           "metadata" := VDict ∅ ]} : dict).
Proof.
  apply (proj2 (analyze_evidence_never_fails (agent_with unreachable)
                  (VStr "QmHash") VNone (VStr "Prototype delivered"))
           (Exn "ConnectionError" "knowledge graph unreachable")).
  reflexivity.
Defined.

(** C7, refuted: an exception that escapes the stages does not lead to
    a [verification_error] envelope.  When the knowledge service answers
    with a null relevance, [combine_results] raises; [verify_milestone]
    turns this into the result "uncertain", and the handler sends that
    result in the [verification_result] envelope, the only message. *)
Lemma stage_failure_sent_as_result :
  let self := agent_with null_relevance in
  exists e,
    verify_milestone_stages self local_env sample_request = Raise e /\
    handle_verification_request self local_env "backend" sample_request (IoState [] 0)
    = (Ok tt,
       IoState [("backend",
                 result_envelope sample_request (failed_result e)
                   (utcnow_isoformat local_env 0))] 1) /\
    result_envelope sample_request (failed_result e) (utcnow_isoformat local_env 0) !! "type"
    = Some (VStr "verification_result").
Proof.
  eexists. split; [vm_compute; reflexivity | ]. split; [vm_compute; reflexivity | reflexivity].
Qed.

(** C7, amended: [verify_milestone] never raises: when a stage raises it
    returns the best-effort result with verdict "uncertain" and
    confidence 0.0, which the handler sends in the normal
    [verification_result] envelope.  The handler sends the
    [verification_error] envelope, with the request id, the error text and
    a timestamp, exactly when sending the result raised, and it raises
    itself only when sending that error envelope raises too. *)
Theorem handler_error_paths (self : MilestoneVerifierAgent) (env : Env)
    (sender : string) (msg : dict) (st : io_state) :
  exists result,
    verify_milestone self env msg = Ok result /\
    (forall e, verify_milestone_stages self env msg = Raise e ->
       result = failed_result e /\
       result !! "verdict" = Some (VStr "uncertain") /\
       result !! "confidence" = Some (VFloat 0) /\
       result !! "error" = Some (VStr (exn_msg e))) /\
    (forall r, verify_milestone_stages self env msg = Ok r -> result = r) /\
    let sent := result_envelope msg result (utcnow_isoformat env (clock st)) in
    match ctx_send env sender sent with
    | Ok _ =>
        handle_verification_request self env sender msg st
        = (Ok tt, IoState (outbox st ++ [(sender, sent)]) (S (clock st)))
    | Raise e =>
        let failure := error_envelope msg e (utcnow_isoformat env (S (clock st))) in
        failure !! "type" = Some (VStr "verification_error") /\
        failure !! "request_id" = Some (dict_get msg "request_id" VNone) /\
        failure !! "error" = Some (VStr (exn_msg e)) /\
        match ctx_send env sender failure with
        | Ok _ =>
            handle_verification_request self env sender msg st
            = (Ok tt, IoState (outbox st ++ [(sender, failure)]) (S (S (clock st))))
        | Raise e' =>
            handle_verification_request self env sender msg st
            = (Raise e', IoState (outbox st) (S (S (clock st))))
        end
    end.
Proof.
  unfold handle_verification_request, verify_milestone.
  destruct (verify_milestone_stages self env msg) as [r | e0]; cbn [try_except].
  - exists r. split; [reflexivity | ]. split; [discriminate | ].
    split; [intros r' H; now injection H | ].
    cbv zeta. unfold io_try_except, io_bind, io_lift, utcnow_iso, send. cbn [clock outbox].
    destruct (ctx_send env sender _) as [[] | e]; [reflexivity | ].
    split; [reflexivity | ]. split; [reflexivity | ]. split; [reflexivity | ].
    destruct (ctx_send env sender _) as [[] | e']; destruct st; reflexivity.
  - exists (failed_result e0). split; [reflexivity | ].
    split; [intros e H; injection H as <-; repeat split; reflexivity | ].
    split; [discriminate | ].
    cbv zeta. unfold io_try_except, io_bind, io_lift, utcnow_iso, send. cbn [clock outbox].
    destruct (ctx_send env sender _) as [[] | e]; [reflexivity | ].
    split; [reflexivity | ]. split; [reflexivity | ]. split; [reflexivity | ].
    destruct (ctx_send env sender _) as [[] | e']; destruct st; reflexivity.
Qed.

Lemma handler_error_paths_witness :
  exists e,
    handle_verification_request (agent_with unreachable) lossy_env "backend" sample_request
      (IoState [] 0)
    = (Ok tt,
       IoState [("backend", error_envelope sample_request e (utcnow_isoformat lossy_env 1))] 2).
Proof.
  destruct (handler_error_paths (agent_with unreachable) lossy_env "backend" sample_request
              (IoState [] 0)) as (result & _ & _ & _ & H).
  cbv zeta in H.
  change (ctx_send lossy_env "backend"
            (result_envelope sample_request result (utcnow_isoformat lossy_env (clock (IoState [] 0)))))
    with (@Raise unit (Exn "DeliveryError" "sender unreachable")) in H.
  cbv iota in H. destruct H as (_ & _ & _ & H).
  change (ctx_send lossy_env "backend" _) with (@Ok unit tt) in H. cbv iota in H.
  eexists. exact H.
Defined.

(** C8, refuted: in binary64 the sum 0.5 + 0.2 + 0.2 + 0.1 is not 1.0,
    so the mock confidence of scenario 2 is not exactly 1.0. *)
Lemma scenario2_confidence_not_one :
  exists mv x,
    get_mock_agent_response (agent_with unreachable)
      (agent_request (agent_with unreachable) (VStr "m-1") (VStr "0xC0FFEE")
         (analysis 0.9 0.8 0.5) (VStr description80)) = Ok mv /\
    mv !! "confidence" = Some (VFloat x) /\
    x <> 1%float.
Proof.
  eexists. eexists. split; [vm_compute; reflexivity | ]. split; [reflexivity | ].
  intros H. discriminate H.
Qed.

(** C8, amended: for a description of 80 characters, the evidence
    analysis (0.9, 0.8, 0.5) and the threshold 0.8, the mock generator
    yields the confidence 0.9999999999999999 and approves, the evidence
    score is 0.7500000000000001, the combined confidence is
    0.8999999999999999, and the final verdict is "approved". *)
Theorem scenario2_approved (query : dict -> string -> outcome value) (env : Env)
    (milestone_id campaign_address : value) (d : string) :
  String.length d = 80%nat ->
  let self := agent 0.8 query in
  let ea := analysis 0.9 0.8 0.5 in
  exists mv res,
    get_mock_agent_response self
      (agent_request self milestone_id campaign_address ea (VStr d)) = Ok mv /\
    mv !! "confidence" = Some (VFloat 0.9999999999999999) /\
    mv !! "approved" = Some (VBool true) /\
    evidence_score_of 0.9 0.8 0.5 = 0.7500000000000001%float /\
    combine_results self env ea mv = Ok res /\
    res !! "confidence" = Some (VFloat 0.8999999999999999) /\
    res !! "verdict" = Some (VStr "approved").
Proof.
  intros Hlen self ea.
  assert (Hm : get_mock_agent_response self
                 (agent_request self milestone_id campaign_address ea (VStr d))
               = Ok (spec_mock_verdict 0.8 d 0.9 0.8)).
  { apply (get_mock_agent_response_floats self _
             {[ "milestone_id" := milestone_id; "campaign_address" := campaign_address;
                "description" := VStr d; "evidence_analysis" := VDict ea ]} ea d 0.9 0.8);
      reflexivity. }
  assert (Hc : spec_mock_confidence d 0.9 0.8 = 0.9999999999999999%float).
  { unfold spec_mock_confidence. rewrite Hlen.
    destruct d as [ | ch d']; [discriminate Hlen | ]. reflexivity. }
  exists (spec_mock_verdict 0.8 d 0.9 0.8).
  rewrite (combine_results_floats self env ea (spec_mock_verdict 0.8 d 0.9 0.8)
             0.9 0.8 0.5 (spec_mock_confidence d 0.9 0.8)) by reflexivity.
  eexists. split; [exact Hm | ].
  split; [unfold spec_mock_verdict; rewrite Hc; reflexivity | ].
  split; [unfold spec_mock_verdict; rewrite Hc; reflexivity | ].
  split; [reflexivity | ].
  split; [reflexivity | ].
  split.
  - rewrite Hc. reflexivity.
  - unfold spec_mock_verdict. rewrite Hc. reflexivity.
Qed.

Lemma scenario2_approved_witness :
  String.length description80 = 80%nat /\
  let self := agent 0.8 unreachable in
  let ea := analysis 0.9 0.8 0.5 in
  exists mv res,
    get_mock_agent_response self
      (agent_request self (VStr "m-1") (VStr "0xC0FFEE") ea (VStr description80)) = Ok mv /\
    mv !! "confidence" = Some (VFloat 0.9999999999999999) /\
    mv !! "approved" = Some (VBool true) /\
    evidence_score_of 0.9 0.8 0.5 = 0.7500000000000001%float /\
    combine_results self local_env ea mv = Ok res /\
    res !! "confidence" = Some (VFloat 0.8999999999999999) /\
    res !! "verdict" = Some (VStr "approved").
Proof.
  split; [reflexivity | ].
  apply (scenario2_approved unreachable local_env (VStr "m-1") (VStr "0xC0FFEE") description80).
  reflexivity.
Defined.

(** * Further properties of the stages and of their composition *)

Import MoreExamples.

Section StageFacts.

Context (self : MilestoneVerifierAgent) (env : Env).

Lemma try_except_same {A} (m : outcome A) : try_except m (fun _ => m) = m.
Proof. destruct m; reflexivity. Qed.

(** Without a usable remote answer the transport returns what the mock
    generator returns. *)
Lemma call_asi_one_chat_falls_back (request : dict) :
  falls_back env ->
  call_asi_one_chat self env request
  = (r <- get_mock_agent_response self request ;; Ok (VDict r)).
Proof.
  intros [H | [H | H]]; unfold call_asi_one_chat.
  - rewrite H. apply try_except_same.
  - rewrite H. apply try_except_same.
  - destruct (getenv env "ASI_API_KEY") as [[ | ch key] | ]; try apply try_except_same.
    cbv zeta. destruct (H (default "https://api.asi.one" (getenv env "ASI_ENDPOINT") ++ "/chat/agent")
                          request
                          {[ "Authorization" := VStr ("Bearer " ++ String ch key);
                             "Content-Type" := VStr "application/json";
                             "X-API-Key" := VStr (String ch key);
                             "User-Agent" := VStr "AutoCrowd-MilestoneVerifier/1.0" ]}
                          120%Z) as [e He].
    rewrite He. reflexivity.
Qed.

(** In that situation, on a description text and float scores, the agent
    verdict is the mock verdict. *)
Lemma get_agent_verdict_mock (milestone_id campaign_address : value)
    (ea : dict) (d : string) (r c : float) :
  falls_back env ->
  dict_get ea "relevance" (VFloat 0.5) = VFloat r ->
  dict_get ea "completeness" (VFloat 0.5) = VFloat c ->
  get_agent_verdict self env milestone_id campaign_address ea (VStr d)
  = Ok (spec_mock_verdict (confidence_threshold self) d r c).
Proof.
  intros Hf Hr Hc. unfold get_agent_verdict. cbv zeta.
  rewrite (call_asi_one_chat_falls_back _ Hf).
  rewrite (get_mock_agent_response_floats self _
             {[ "milestone_id" := milestone_id; "campaign_address" := campaign_address;
                "description" := VStr d; "evidence_analysis" := VDict ea ]} ea d r c);
    try reflexivity; assumption.
Qed.

(** The verdict and the confidence in a result of [combine_results]. *)
Lemma combine_results_verdict (ea av res : dict) :
  combine_results self env ea av = Ok res ->
  exists x,
    res !! "verdict"
    = Some (VStr (verdict_of (confidence_threshold self) x
                    (truthy (dict_get av "approved" (VBool false))))) /\
    res !! "confidence" = Some (VFloat x).
Proof.
  unfold combine_results.
  destruct (mul_float (dict_get ea "relevance" (VFloat 0.5)) 0.4) as [x1 | e1]; cbn [bind];
    [ | discriminate].
  destruct (mul_float (dict_get ea "completeness" (VFloat 0.5)) 0.3) as [x2 | e2]; cbn [bind];
    [ | discriminate].
  destruct (mul_float (dict_get ea "authenticity" (VFloat 0.5)) 0.3) as [x3 | e3]; cbn [bind];
    [ | discriminate].
  destruct (mul_float (dict_get av "confidence" (VFloat 0.5)) 0.6) as [x4 | e4]; cbn [bind];
    [ | discriminate].
  intros H. injection H as <-. eexists. split; reflexivity.
Qed.

Lemma verdict_of_cases (threshold x : float) (approved : bool) :
  verdict_of threshold x approved = "approved" \/
  verdict_of threshold x approved = "rejected" \/
  verdict_of threshold x approved = "uncertain".
Proof.
  unfold verdict_of. destruct (float_ge _ _ && _); [left; reflexivity | ].
  destruct (_ || _); [right; left | right; right]; reflexivity.
Qed.

End StageFacts.

(** X1: [verify_milestone] returns on every request, whatever the two
    services do, and its result carries a verdict that is "approved",
    "rejected" or "uncertain" and a float confidence. *)
Theorem verify_milestone_always_verdict (self : MilestoneVerifierAgent) (env : Env)
    (request : dict) :
  exists res v x,
    verify_milestone self env request = Ok res /\
    res !! "verdict" = Some (VStr v) /\
    (v = "approved" \/ v = "rejected" \/ v = "uncertain") /\
    res !! "confidence" = Some (VFloat x).
Proof.
  unfold verify_milestone.
  destruct (verify_milestone_stages self env request) as [res | e] eqn:E; cbn [try_except].
  - unfold verify_milestone_stages in E. cbv zeta in E.
    destruct (analyze_evidence _ _ _ _) as [ea | e1]; cbn [bind] in E; [ | discriminate E].
    destruct (get_agent_verdict _ _ _ _ _ _) as [av | e2]; cbn [bind] in E; [ | discriminate E].
    destruct (combine_results self env ea av) as [res' | e3] eqn:C; cbn [bind] in E;
      [ | discriminate E].
    injection E as <-.
    destruct (combine_results_verdict self env ea av res' C) as (x & H1 & H2).
    eexists res', _, x. split; [reflexivity | ]. split; [exact H1 | ].
    split; [apply verdict_of_cases | exact H2].
  - exists (failed_result e), "uncertain", 0%float.
    split; [reflexivity | ]. split; [reflexivity | ]. split; [auto | reflexivity].
Qed.

(** X2: [get_agent_verdict] never raises.  Its result always has exactly
    the keys approved, confidence, reasoning and recommendations, and when
    the transport raises it is the negative verdict with confidence 0.0
    whose reasoning ends with the error text. *)
Theorem get_agent_verdict_never_fails (self : MilestoneVerifierAgent) (env : Env)
    (milestone_id campaign_address : value) (ea : dict) (description : value) :
  (exists res,
     get_agent_verdict self env milestone_id campaign_address ea description = Ok res /\
     dom res = verdict_keys) /\
  (forall e,
     call_asi_one_chat self env
       (agent_request self milestone_id campaign_address ea description) = Raise e ->
     get_agent_verdict self env milestone_id campaign_address ea description
     = Ok (failed_verdict e)).
Proof.
  unfold get_agent_verdict. cbv zeta. split.
  - destruct (call_asi_one_chat self env _) as [response | e]; cbn [bind try_except];
      [ | eexists; split; reflexivity].
    destruct response; cbn [get bind try_except]; eexists; split; reflexivity.
  - intros e He. rewrite He. reflexivity.
Qed.

Lemma get_agent_verdict_never_fails_witness :
  get_agent_verdict (agent_with unreachable) local_env (VStr "m-1") (VStr "0xC0FFEE")
    (analysis 0.5 0.5 0.5) VNone
  = Ok (failed_verdict (TypeError "object of type 'NoneType' has no len()")).
Proof.
  apply (proj2 (get_agent_verdict_never_fails (agent_with unreachable) local_env
                  (VStr "m-1") (VStr "0xC0FFEE") (analysis 0.5 0.5 0.5) VNone)).
  reflexivity.
Defined.

(** X3: when no credential is configured, or the verdict service fails
    on every call, [get_agent_verdict] on a description text and float
    scores returns the mock verdict: request building, transport and the
    reading of the response compose to the mock generator. *)
Theorem get_agent_verdict_fallback (self : MilestoneVerifierAgent) (env : Env)
    (milestone_id campaign_address : value) (ea : dict) (d : string) (r c : float) :
  falls_back env ->
  dict_get ea "relevance" (VFloat 0.5) = VFloat r ->
  dict_get ea "completeness" (VFloat 0.5) = VFloat c ->
  get_agent_verdict self env milestone_id campaign_address ea (VStr d)
  = Ok (spec_mock_verdict (confidence_threshold self) d r c).
Proof.
  intros Hf Hr Hc. exact (get_agent_verdict_mock self env _ _ ea d r c Hf Hr Hc).
Qed.

Lemma get_agent_verdict_fallback_witness :
  falls_back keyed_env /\
  get_agent_verdict (agent_with unreachable) keyed_env (VStr "m-1") (VStr "0xC0FFEE")
    (analysis 0.9 0.8 0.5) (VStr "Beta released")
  = Ok (spec_mock_verdict 0.8 "Beta released" 0.9 0.8).
Proof.
  assert (H : falls_back keyed_env).
  { right. right. intros url json headers timeout. eexists. reflexivity. }
  split; [exact H | ].
  apply (get_agent_verdict_fallback (agent_with unreachable) keyed_env
           (VStr "m-1") (VStr "0xC0FFEE") (analysis 0.9 0.8 0.5) "Beta released" 0.9 0.8 H);
    reflexivity.
Defined.



(** X5: [analyze_evidence] always returns a dictionary with exactly the
    keys relevance, completeness, authenticity, reasoning and metadata.
    When the knowledge service answers with a dictionary, each of the five
    fields is copied from the answer, a missing one takes its default, and
    every other key of the answer is dropped. *)
Theorem analyze_evidence_shape (self : MilestoneVerifierAgent)
    (evidence_hash evidence_url description : value) :
  exists res,
    analyze_evidence self evidence_hash evidence_url description = Ok res /\
    dom res = analysis_keys /\
    (forall resp,
       metta_client_query self (evidence_query evidence_hash evidence_url description)
         "milestone_verification" = Ok (VDict resp) ->
       res !! "relevance" = Some (dict_get resp "relevance" (VFloat 0.5)) /\
       res !! "completeness" = Some (dict_get resp "completeness" (VFloat 0.5)) /\
       res !! "authenticity" = Some (dict_get resp "authenticity" (VFloat 0.5)) /\
       res !! "reasoning" = Some (dict_get resp "reasoning" (VStr "Evidence analysis completed")) /\
       res !! "metadata" = Some (dict_get resp "metadata" (VDict ∅))).
Proof.
  unfold analyze_evidence. cbv zeta.
  destruct (metta_client_query self _ _) as [response | e]; cbn [bind try_except].
  - destruct response; cbn [get bind try_except]; eexists;
      (split; [reflexivity | ]); (split; [reflexivity | ]); intros resp H; try discriminate H.
    injection H as <-. repeat split; reflexivity.
  - eexists. split; [reflexivity | ]. split; [reflexivity | ]. intros resp H. discriminate H.
Qed.

(** X6: an answer of the knowledge service that is not a dictionary (a
    list, a number, a string, null) is treated like a failed query: the
    analysis is the neutral one, all three scores 0.5 and empty metadata,
    and its reasoning reports that the answer has no attribute [get]. *)
Theorem analyze_evidence_malformed_response (self : MilestoneVerifierAgent)
    (evidence_hash evidence_url description v : value) :
  metta_client_query self (evidence_query evidence_hash evidence_url description)
    "milestone_verification" = Ok v ->
  (forall d, v <> VDict d) ->
  analyze_evidence self evidence_hash evidence_url description
  = Ok (failed_analysis
          (AttributeError ("'" ++ type_name v ++ "' object has no attribute 'get'"))).
Proof.
  intros H Hv. unfold analyze_evidence. cbv zeta. rewrite H. cbn [bind].
  destruct v; try reflexivity. exfalso. exact (Hv d eq_refl).
Qed.

Lemma analyze_evidence_malformed_response_witness :
  analyze_evidence (agent_with array_answer) (VStr "QmHash") (VStr "ipfs://QmHash") (VStr "")
  = Ok (failed_analysis (AttributeError "'list' object has no attribute 'get'")).
Proof.
  apply (analyze_evidence_malformed_response (agent_with array_answer)
           (VStr "QmHash") (VStr "ipfs://QmHash") (VStr "") (VList [VFloat 0.9; VFloat 0.8])).
  - reflexivity.
  - intros d H. discriminate H.
Defined.

(** X7: a description that has no length (null, a boolean, a number)
    makes the mock generator raise, so whenever the verdict comes from the
    mock generator the agent verdict is the negative one with confidence
    0.0 whose reasoning names the type of the description. *)
Theorem get_agent_verdict_unsized_description (self : MilestoneVerifierAgent) (env : Env)
    (milestone_id campaign_address description : value) (ea : dict) (r c : float) (e : exn) :
  falls_back env ->
  len description = Raise e ->
  dict_get ea "relevance" (VFloat 0.5) = VFloat r ->
  dict_get ea "completeness" (VFloat 0.5) = VFloat c ->
  e = TypeError ("object of type '" ++ type_name description ++ "' has no len()") /\
  get_agent_verdict self env milestone_id campaign_address ea description
  = Ok (failed_verdict e).
Proof.
  intros Hf Hl Hr Hc. unfold get_agent_verdict. cbv zeta.
  rewrite (call_asi_one_chat_falls_back self env _ Hf).
  unfold get_mock_agent_response, agent_request.
  change (dict_get _ "context" (VDict ∅))
    with (VDict ({[ "milestone_id" := milestone_id; "campaign_address" := campaign_address;
                    "description" := description; "evidence_analysis" := VDict ea ]} : dict)).
  cbn [get bind].
  change (dict_get _ "description" (VStr "")) with description.
  change (dict_get _ "evidence_analysis" (VDict ∅)) with (VDict ea).
  cbn [get bind]. rewrite Hr, Hc.
  destruct description; try discriminate Hl; cbn in Hl; injection Hl as <-;
    cbn [truthy len bind gt_float try_except type_name];
    repeat match goal with
           | |- context [if ?b then _ else _] => destruct b; cbn [len bind try_except]
           end;
    (split; reflexivity).
Qed.

Lemma get_agent_verdict_unsized_description_witness :
  get_agent_verdict (agent_with unreachable) keyed_env (VStr "m-1") (VStr "0xC0FFEE")
    (analysis 0.9 0.8 0.5) (VInt 42)
  = Ok (failed_verdict (TypeError "object of type 'int' has no len()")).
Proof.
  assert (H : falls_back keyed_env).
  { right. right. intros url json headers timeout. eexists. reflexivity. }
  apply (proj2 (get_agent_verdict_unsized_description (agent_with unreachable) keyed_env
                  (VStr "m-1") (VStr "0xC0FFEE") (VInt 42) (analysis 0.9 0.8 0.5) 0.9 0.8
                  (TypeError "object of type 'int' has no len()") H eq_refl eq_refl eq_refl)).
Defined.

(** X8: with the default threshold 0.8 the mock generator approves
    exactly when the description is longer than 50 characters and the
    relevance exceeds 0.7.  Completeness never decides: without one of
    the two the confidence stays below 0.8 even with its bonus, since
    0.5 + 0.2 + 0.1 is 0.7999999999999999 in binary64. *)
Theorem mock_approval_default_threshold (self : MilestoneVerifierAgent)
    (request ctx ea : dict) (d : string) (r c : float) :
  confidence_threshold self = 0.8%float ->
  dict_get request "context" (VDict ∅) = VDict ctx ->
  dict_get ctx "description" (VStr "") = VStr d ->
  dict_get ctx "evidence_analysis" (VDict ∅) = VDict ea ->
  dict_get ea "relevance" (VFloat 0.5) = VFloat r ->
  dict_get ea "completeness" (VFloat 0.5) = VFloat c ->
  exists res,
    get_mock_agent_response self request = Ok res /\
    res !! "approved" = Some (VBool ((50 <? String.length d)%nat && (0.7 <? r)%float)).
Proof.
  intros Ht H1 H2 H3 H4 H5.
  rewrite (get_mock_agent_response_floats self request ctx ea d r c H1 H2 H3 H4 H5).
  eexists. split; [reflexivity | ]. rewrite Ht.
  unfold spec_mock_verdict, spec_mock_confidence. cbv zeta.
  change (({[ "approved" := ?a; "confidence" := ?b; "reasoning" := ?x; "recommendations" := ?y ]} : dict)
            !! "approved") with (Some a).
  do 2 f_equal.
  destruct (String.eqb_spec d "") as [-> | _]; cbn [negb andb].
  - destruct (0.7 <? r)%float, (0.7 <? c)%float; reflexivity.
  - destruct (50 <? String.length d)%nat, (0.7 <? r)%float, (0.7 <? c)%float; reflexivity.
Qed.

Lemma mock_approval_default_threshold_witness :
  exists res,
    get_mock_agent_response (agent_with unreachable)
      (agent_request (agent_with unreachable) (VStr "m-1") (VStr "0xC0FFEE")
         (analysis 0.5 0.9 0.5) (VStr description80)) = Ok res /\
    res !! "approved" = Some (VBool false).
Proof.
  apply (mock_approval_default_threshold (agent_with unreachable)
           (agent_request (agent_with unreachable) (VStr "m-1") (VStr "0xC0FFEE")
              (analysis 0.5 0.9 0.5) (VStr description80))
           {[ "milestone_id" := VStr "m-1"; "campaign_address" := VStr "0xC0FFEE";
              "description" := VStr description80;
              "evidence_analysis" := VDict (analysis 0.5 0.9 0.5) ]}
           (analysis 0.5 0.9 0.5) description80 0.5 0.9);
    reflexivity.
Defined.

(** X9: a request without a context, or whose context has neither a
    description nor an analysis, gets the base mock verdict: confidence
    0.5 for an empty description and the default relevance 0.5, approved
    only if the threshold is at most 0.5. *)
Theorem mock_missing_context (self : MilestoneVerifierAgent) (request : dict) :
  request !! "context" = None \/ request !! "context" = Some (VDict ∅) ->
  get_mock_agent_response self request
  = Ok ({[ "approved" := VBool (float_ge 0.5 (confidence_threshold self));
           "confidence" := VFloat 0.5;
           "reasoning" := VStr "Mock agent analysis: Description length=0, Evidence relevance=0.50";
           "recommendations" :=
             VList [ VStr "Consider providing more detailed evidence";
                     VStr "Ensure milestone deliverables are clearly defined" ] ]} : dict).
Proof.
  intros H.
  rewrite (get_mock_agent_response_floats self request ∅ ∅ "" 0.5 0.5); try reflexivity.
  unfold dict_get. destruct H as [-> | ->]; reflexivity.
Qed.

Lemma mock_missing_context_witness :
  get_mock_agent_response (agent_with unreachable) ∅
  = Ok ({[ "approved" := VBool false;
           "confidence" := VFloat 0.5;
           "reasoning" := VStr "Mock agent analysis: Description length=0, Evidence relevance=0.50";
           "recommendations" :=
             VList [ VStr "Consider providing more detailed evidence";
                     VStr "Ensure milestone deliverables are clearly defined" ] ]} : dict).
Proof.
  apply (mock_missing_context (agent_with unreachable) ∅). left. reflexivity.
Defined.

(** X10: [verify_milestone] reads only the keys milestone_id,
    campaign_address, evidence_hash, evidence_url and description of the
    request: adding or changing any other key, request_id included,
    leaves its result unchanged. *)
Theorem verify_milestone_reads_five_keys (self : MilestoneVerifierAgent) (env : Env)
    (request : dict) (key : string) (v : value) :
  key <> "milestone_id" -> key <> "campaign_address" -> key <> "evidence_hash" ->
  key <> "evidence_url" -> key <> "description" ->
  verify_milestone self env (<[ key := v ]> request) = verify_milestone self env request.
Proof.
  intros H1 H2 H3 H4 H5. unfold verify_milestone, verify_milestone_stages, dict_get.
  rewrite !lookup_insert_ne by congruence. reflexivity.
Qed.

Lemma verify_milestone_reads_five_keys_witness :
  verify_milestone (agent_with unreachable) local_env
    (<[ "request_id" := VStr "req-7" ]> sample_request)
  = verify_milestone (agent_with unreachable) local_env sample_request.
Proof.
  apply (verify_milestone_reads_five_keys (agent_with unreachable) local_env sample_request
           "request_id" (VStr "req-7")); discriminate.
Defined.

(** X11: one run of the request handler delivers at most one message and
    never touches the messages delivered before.  It returns normally
    exactly when a reply was delivered; the reply goes to the sender of
    the request, is a verification_result or a verification_error, and
    echoes the request_id of the request.  The handler raises only when
    nothing could be delivered. *)
Theorem handler_delivers_one_reply (self : MilestoneVerifierAgent) (env : Env)
    (sender : string) (msg : dict) (st : io_state) :
  match handle_verification_request self env sender msg st with
  | (Ok _, st') =>
      exists reply,
        outbox st' = (outbox st ++ [(sender, reply)])%list /\
        (reply !! "type" = Some (VStr "verification_result") \/
         reply !! "type" = Some (VStr "verification_error")) /\
        reply !! "request_id" = Some (dict_get msg "request_id" VNone)
  | (Raise _, st') => outbox st' = outbox st
  end.
Proof.
  unfold handle_verification_request, io_try_except, io_bind, io_lift, utcnow_iso, send.
  destruct (verify_milestone self env msg) as [result | e]; cbn [outbox clock].
  - destruct (ctx_send env sender (result_envelope msg result _)) as [[] | e1]; cbn [outbox clock].
    + eexists. split; [reflexivity | ]. split; [left; reflexivity | reflexivity].
    + destruct (ctx_send env sender (error_envelope msg e1 _)) as [[] | e2]; cbn [outbox clock].
      * eexists. split; [reflexivity | ]. split; [right; reflexivity | reflexivity].
      * reflexivity.
  - destruct (ctx_send env sender (error_envelope msg e _)) as [[] | e2]; cbn [outbox clock].
    + eexists. split; [reflexivity | ]. split; [right; reflexivity | reflexivity].
    + reflexivity.
Qed.

(** Results of [mul_float]. *)
Lemma mul_float_ok_iff (v : value) (c : float) :
  (exists x, mul_float v c = Ok x) <-> is_number v = true.
Proof.
  destruct v as [ | b | z | f | s | l | d]; cbn [mul_float is_number];
    try (split; [intros _; reflexivity | intros _; eexists; reflexivity]);
    try (split; [intros [x H]; discriminate H | intros H; discriminate H]).
  destruct (float_of_int z); cbn [bind].
  - split; [intros _; reflexivity | intros _; eexists; reflexivity].
  - split; [intros [x H]; discriminate H | intros H; discriminate H].
Qed.

(** X12: [combine_results] returns exactly when the three evidence scores
    and the agent confidence it reads (0.5 standing for a missing one)
    are numbers; a score that is a string, a list, a dictionary, null or
    an integer too large for a float makes it raise. *)
Theorem combine_results_returns_iff_numbers (self : MilestoneVerifierAgent) (env : Env)
    (ea av : dict) :
  (exists res, combine_results self env ea av = Ok res) <->
  is_number (dict_get ea "relevance" (VFloat 0.5))
  && is_number (dict_get ea "completeness" (VFloat 0.5))
  && is_number (dict_get ea "authenticity" (VFloat 0.5))
  && is_number (dict_get av "confidence" (VFloat 0.5)) = true.
Proof.
  unfold combine_results. cbv zeta.
  pose proof (mul_float_ok_iff (dict_get ea "relevance" (VFloat 0.5)) 0.4) as H1.
  pose proof (mul_float_ok_iff (dict_get ea "completeness" (VFloat 0.5)) 0.3) as H2.
  pose proof (mul_float_ok_iff (dict_get ea "authenticity" (VFloat 0.5)) 0.3) as H3.
  pose proof (mul_float_ok_iff (dict_get av "confidence" (VFloat 0.5)) 0.6) as H4.
  rewrite !andb_true_iff, <- H1, <- H2, <- H3, <- H4. clear H1 H2 H3 H4.
  destruct (mul_float (dict_get ea "relevance" (VFloat 0.5)) 0.4) as [x1 | e1]; cbn [bind];
    [ | split; [intros [res H]; discriminate H | intros [[[[x H] _] _] _]; discriminate H]].
  destruct (mul_float (dict_get ea "completeness" (VFloat 0.5)) 0.3) as [x2 | e2]; cbn [bind];
    [ | split; [intros [res H]; discriminate H | intros [[[_ [x H]] _] _]; discriminate H]].
  destruct (mul_float (dict_get ea "authenticity" (VFloat 0.5)) 0.3) as [x3 | e3]; cbn [bind];
    [ | split; [intros [res H]; discriminate H | intros [[_ [x H]] _]; discriminate H]].
  destruct (mul_float (dict_get av "confidence" (VFloat 0.5)) 0.6) as [x4 | e4]; cbn [bind];
    [ | split; [intros [res H]; discriminate H | intros [_ [x H]]; discriminate H]].
  split; intros _; [ | eexists; reflexivity].
  repeat split; eexists; reflexivity.
Qed.

(** X13: a relevance score the knowledge service delivers as something
    other than a number makes every verification end uncertain with
    confidence 0.0, whatever the verdict service answers: the agent
    verdict stage absorbs its own failure, and the combination raises on
    the relevance first. *)
Theorem non_number_relevance_uncertain (self : MilestoneVerifierAgent) (env : Env)
    (request resp : dict) (v : value) (e : exn) :
  metta_client_query self
    (evidence_query (dict_get request "evidence_hash" VNone)
       (dict_get request "evidence_url" VNone) (dict_get request "description" (VStr "")))
    "milestone_verification" = Ok (VDict resp) ->
  resp !! "relevance" = Some v ->
  mul_float v 0.4 = Raise e ->
  verify_milestone self env request = Ok (failed_result e).
Proof.
  intros Hq Hv He. unfold verify_milestone, verify_milestone_stages. cbv zeta.
  unfold analyze_evidence. cbv zeta. rewrite Hq. cbn [bind get try_except].
  destruct (get_agent_verdict self env _ _ _ _) as [av | e'] eqn:E.
  - cbn [bind]. unfold combine_results. cbv zeta.
    change (dict_get _ "relevance" (VFloat 0.5)) with (dict_get resp "relevance" (VFloat 0.5)).
    unfold dict_get at 1. rewrite Hv, He. reflexivity.
  - exfalso. unfold get_agent_verdict in E. cbv zeta in E.
    destruct (call_asi_one_chat self env _) as [response | e1]; cbn [bind try_except] in E;
      [ | discriminate E].
    destruct response; cbn [get bind try_except] in E; discriminate E.
Qed.

Lemma non_number_relevance_uncertain_witness :
  verify_milestone
    (agent_with (fun _ _ => Ok (VDict {[ "relevance" := VStr "0.9" ]}))) keyed_env sample_request
  = Ok (failed_result (TypeError "can't multiply sequence by non-int of type 'float'")).
Proof.
  apply (non_number_relevance_uncertain
           (agent_with (fun _ _ => Ok (VDict {[ "relevance" := VStr "0.9" ]}))) keyed_env
           sample_request {[ "relevance" := VStr "0.9" ]} (VStr "0.9")
           (TypeError "can't multiply sequence by non-int of type 'float'"));
    reflexivity.
Defined.

(** ** Order of binary64 numbers *)

Module OrderFacts.

Import Rounding RoundingFacts.

Lemma SFleb_trans x y z : SFleb x y = true -> SFleb y z = true -> SFleb x z = true.
Proof.
  unfold SFleb.
  destruct x as [sx | sx | | sx mx ex], y as [sy | sy | | sy my ey], z as [sz | sz | | sz mz ez];
    cbn [SFcompare]; intros H1 H2;
    try reflexivity; try discriminate H1; try discriminate H2;
    try (destruct sx; try reflexivity; try discriminate H1; try discriminate H2);
    try (destruct sy; try reflexivity; try discriminate H1; try discriminate H2);
    try (destruct sz; try reflexivity; try discriminate H1; try discriminate H2).
  - change (Pos.compare_cont Eq) with Pos.compare in *.
    destruct (Z.compare_spec ex ey), (Z.compare_spec ey ez), (Z.compare_spec ex ez);
      try reflexivity; try discriminate H1; try discriminate H2; try lia.
    destruct (Pos.compare_spec mx my), (Pos.compare_spec my mz), (Pos.compare_spec mx mz);
      try reflexivity; try discriminate H1; try discriminate H2; try lia.
  - change (Pos.compare_cont Eq) with Pos.compare in *.
    destruct (Z.compare_spec ex ey), (Z.compare_spec ey ez), (Z.compare_spec ex ez);
      try reflexivity; try discriminate H1; try discriminate H2; try lia.
    destruct (Pos.compare_spec mx my), (Pos.compare_spec my mz), (Pos.compare_spec mx mz);
      try reflexivity; try discriminate H1; try discriminate H2; try lia.
Qed.

Lemma float_leb_trans x y z :
  (x <=? y)%float = true -> (y <=? z)%float = true -> (x <=? z)%float = true.
Proof. rewrite !FloatAxioms.leb_spec. apply SFleb_trans. Qed.

Lemma nn_b_complete f : nn f -> nn_b f = true.
Proof. intros [s | m e H]; [reflexivity | exact H]. Qed.

Lemma nonneg_finite_below x y :
  (0 <=? x)%float = true -> (x <=? y)%float = true -> nonneg_finite y = true ->
  nonneg_finite x = true.
Proof.
  intros H0 H1 Hy. apply nn_b_complete. exact (float_le_nn x y H0 H1 Hy).
Qed.

Lemma ordered_below_mul x x' u c :
  ordered_below x x' u -> pos_normal c = true -> nonneg_finite (u * c) = true ->
  ordered_below (x * c) (x' * c) (u * c).
Proof.
  intros (H0 & H1 & H2 & Hu) Hc Huc.
  assert (H0' : (0 <=? x')%float = true) by exact (float_leb_trans _ _ _ H0 H1).
  pose proof (nonneg_finite_below x' u H0' H2 Hu) as Hx'.
  destruct (float_mul_mono x x' c H0 H1 Hx' Hc) as [A B].
  destruct (float_mul_mono x' u c H0' H2 Hu Hc) as [_ D].
  repeat split; assumption.
Qed.

Lemma ordered_below_add a a' u b b' v :
  ordered_below a a' u -> ordered_below b b' v -> nonneg_finite (u + v) = true ->
  ordered_below (a + b) (a' + b') (u + v).
Proof.
  intros (A0 & A1 & A2 & Au) (B0 & B1 & B2 & Bv) Huv.
  assert (A0' : (0 <=? a')%float = true) by exact (float_leb_trans _ _ _ A0 A1).
  assert (B0' : (0 <=? b')%float = true) by exact (float_leb_trans _ _ _ B0 B1).
  pose proof (nonneg_finite_below a' u A0' A2 Au) as Ha'.
  pose proof (nonneg_finite_below b' v B0' B2 Bv) as Hb'.
  destruct (float_add_mono a a' b b' A0 A1 Ha' B0 B1 Hb') as [C D].
  destruct (float_add_mono a' u b' v A0' A2 Au B0' B2 Bv) as [_ F].
  repeat split; assumption.
Qed.

(** The combined confidence grows with each of the four scores. *)
Lemma combined_confidence_mono r r' c c' a a' k k' :
  ordered_below r r' 1 -> ordered_below c c' 1 -> ordered_below a a' 1 ->
  ordered_below k k' 1 ->
  ordered_below (combined_confidence_of (evidence_score_of r c a) k)
                (combined_confidence_of (evidence_score_of r' c' a') k') 1.
Proof.
  intros Hr Hc Ha Hk. unfold combined_confidence_of, evidence_score_of. cbv zeta.
  pose proof (ordered_below_mul _ _ _ 0.4 Hr eq_refl eq_refl) as Hr'.
  pose proof (ordered_below_mul _ _ _ 0.3 Hc eq_refl eq_refl) as Hc'.
  pose proof (ordered_below_mul _ _ _ 0.3 Ha eq_refl eq_refl) as Ha'.
  pose proof (ordered_below_mul _ _ _ 0.6 Hk eq_refl eq_refl) as Hk'.
  pose proof (ordered_below_add _ _ _ _ _ _ Hr' Hc' eq_refl) as H1.
  pose proof (ordered_below_add _ _ _ _ _ _ H1 Ha' eq_refl) as H2.
  pose proof (ordered_below_mul _ _ _ 0.4 H2 eq_refl eq_refl) as H3.
  exact (ordered_below_add _ _ _ _ _ _ H3 Hk' eq_refl).
Qed.

End OrderFacts.

Lemma verdict_of_approved (threshold combined : float) (approved : bool) :
  verdict_of threshold combined approved = "approved" <->
  float_ge combined threshold = true /\ approved = true.
Proof.
  unfold verdict_of.
  destruct (float_ge combined threshold), approved; cbn [andb negb orb];
    try (split; [intros _; split; reflexivity | intros _; reflexivity]);
    (split; [intros H | intros [H1 H2]; discriminate]).
  - rewrite orb_true_r in H. discriminate H.
  - destruct (combined <? 1 - threshold)%float; discriminate H.
  - rewrite orb_true_r in H. discriminate H.
Qed.

(** X14: approval is monotone in the scores.  If [combine_results]
    approves on evidence scores and an agent confidence in the unit
    interval, it also approves when each of the four is replaced by a
    larger value of the unit interval and the agent still approves. *)
Theorem approval_monotone (self : MilestoneVerifierAgent) (env : Env)
    (ea ea' av av' res : dict) (r r' c c' a a' k k' : float) :
  dict_get ea "relevance" (VFloat 0.5) = VFloat r ->
  dict_get ea "completeness" (VFloat 0.5) = VFloat c ->
  dict_get ea "authenticity" (VFloat 0.5) = VFloat a ->
  dict_get av "confidence" (VFloat 0.5) = VFloat k ->
  dict_get ea' "relevance" (VFloat 0.5) = VFloat r' ->
  dict_get ea' "completeness" (VFloat 0.5) = VFloat c' ->
  dict_get ea' "authenticity" (VFloat 0.5) = VFloat a' ->
  dict_get av' "confidence" (VFloat 0.5) = VFloat k' ->
  ordered_below r r' 1 -> ordered_below c c' 1 -> ordered_below a a' 1 ->
  ordered_below k k' 1 ->
  truthy (dict_get av' "approved" (VBool false)) = true ->
  combine_results self env ea av = Ok res ->
  res !! "verdict" = Some (VStr "approved") ->
  exists res',
    combine_results self env ea' av' = Ok res' /\
    res' !! "verdict" = Some (VStr "approved").
Proof.
  intros Er Ec Ea Ek Er' Ec' Ea' Ek' Hr Hc Ha Hk Happ Hres Hv.
  rewrite (combine_results_floats self env ea av r c a k Er Ec Ea Ek) in Hres.
  injection Hres as <-.
  rewrite (combine_results_floats self env ea' av' r' c' a' k' Er' Ec' Ea' Ek').
  eexists. split; [reflexivity | ].
  cbv zeta in Hv |- *.
  change (Some (VStr (verdict_of (confidence_threshold self)
                        (combined_confidence_of (evidence_score_of r c a) k)
                        (truthy (dict_get av "approved" (VBool false)))))
          = Some (VStr "approved")) in Hv.
  change (Some (VStr (verdict_of (confidence_threshold self)
                        (combined_confidence_of (evidence_score_of r' c' a') k')
                        (truthy (dict_get av' "approved" (VBool false)))))
          = Some (VStr "approved")).
  injection Hv as Hv. apply verdict_of_approved in Hv. destruct Hv as [Hge _].
  do 2 f_equal. apply verdict_of_approved. split; [ | exact Happ].
  destruct (OrderFacts.combined_confidence_mono r r' c c' a a' k k' Hr Hc Ha Hk)
    as (_ & Hle & _).
  unfold float_ge in *. exact (OrderFacts.float_leb_trans _ _ _ Hge Hle).
Qed.

Lemma approval_monotone_witness :
  exists res',
    combine_results (agent_with unreachable) local_env (analysis 0.9 0.9 0.9) (verdict true 1.0)
    = Ok res' /\
    res' !! "verdict" = Some (VStr "approved").
Proof.
  assert (H : forall x y : float,
             (0 <=? x)%float = true -> (x <=? y)%float = true -> (y <=? 1)%float = true ->
             ordered_below x y 1).
  { intros x y H0 H1 H2. repeat split; assumption. }
  apply (approval_monotone (agent_with unreachable) local_env
           (analysis 0.8 0.8 0.5) (analysis 0.9 0.9 0.9) (verdict true 0.9) (verdict true 1.0)
           {[ "verdict" := VStr "approved";
              "confidence" := VFloat (combined_confidence_of (evidence_score_of 0.8 0.8 0.5) 0.9);
              "reasoning" := VStr "Evidence analysis completed. Agent analysis completed";
              "details" :=
                VDict {[ "evidence_analysis" := VDict (analysis 0.8 0.8 0.5);
                         "agent_verdict" := VDict (verdict true 0.9);
                         "combined_score" :=
                           VFloat (combined_confidence_of (evidence_score_of 0.8 0.8 0.5) 0.9) ]} ]}
           0.8 0.9 0.8 0.9 0.5 0.9 0.9 1.0);
    try reflexivity; apply H; reflexivity.
Defined.

(** X15: when the agent verdict stage failed (its verdict is the
    negative one with confidence 0.0) and the evidence scores lie in the
    unit interval, [combine_results] rejects, whatever the threshold, and
    the combined confidence is at most 0.4: the evidence alone never
    carries a verification. *)
Theorem failed_verdict_rejected (self : MilestoneVerifierAgent) (env : Env)
    (ea : dict) (e : exn) (r c a : float) :
  dict_get ea "relevance" (VFloat 0.5) = VFloat r ->
  dict_get ea "completeness" (VFloat 0.5) = VFloat c ->
  dict_get ea "authenticity" (VFloat 0.5) = VFloat a ->
  in_unit r -> in_unit c -> in_unit a ->
  exists res x,
    combine_results self env ea (failed_verdict e) = Ok res /\
    res !! "verdict" = Some (VStr "rejected") /\
    res !! "confidence" = Some (VFloat x) /\
    (0 <=? x)%float = true /\ (x <=? 0.4)%float = true.
Proof.
  intros Er Ec Ea [R0 R1] [C0 C1] [A0 A1].
  rewrite (combine_results_floats self env ea (failed_verdict e) r c a 0 Er Ec Ea eq_refl).
  eexists. eexists. split; [reflexivity | ]. cbv zeta.
  split.
  - change (Some (VStr (verdict_of (confidence_threshold self)
                          (combined_confidence_of (evidence_score_of r c a) 0) false))
            = Some (VStr "rejected")).
    unfold verdict_of. rewrite andb_false_r, orb_true_r. reflexivity.
  - split; [reflexivity | ].
    assert (Hr : ordered_below r 1 1) by (repeat split; assumption).
    assert (Hc : ordered_below c 1 1) by (repeat split; assumption).
    assert (Ha : ordered_below a 1 1) by (repeat split; assumption).
    assert (Hk : ordered_below 0 0 1) by (repeat split; reflexivity).
    destruct (OrderFacts.combined_confidence_mono r 1 c 1 a 1 0 0 Hr Hc Ha Hk)
      as (H0 & Hle & _).
    split; [exact H0 | exact Hle].
Qed.

Lemma failed_verdict_rejected_witness :
  exists res x,
    combine_results (agent_with unreachable) local_env (analysis 1.0 1.0 1.0)
      (failed_verdict (TypeError "object of type 'NoneType' has no len()")) = Ok res /\
    res !! "verdict" = Some (VStr "rejected") /\
    res !! "confidence" = Some (VFloat x) /\
    (0 <=? x)%float = true /\ (x <=? 0.4)%float = true.
Proof.
  apply (failed_verdict_rejected (agent_with unreachable) local_env (analysis 1.0 1.0 1.0)
           (TypeError "object of type 'NoneType' has no len()") 1.0 1.0 1.0);
    try reflexivity; split; reflexivity.
Defined.

(** X16: degraded operation.  When the knowledge service is down and the
    verdict comes from the mock generator, a request with a description
    text is rejected under every threshold above 0.7, the default 0.8
    included, and the confidence reported is 0.62 for a description
    longer than 50 characters and 0.5 otherwise. *)
Theorem degraded_mode_rejects (self : MilestoneVerifierAgent) (env : Env)
    (request : dict) (d : string) (e : exn) :
  metta_client_query self
    (evidence_query (dict_get request "evidence_hash" VNone)
       (dict_get request "evidence_url" VNone) (dict_get request "description" (VStr "")))
    "milestone_verification" = Raise e ->
  falls_back env ->
  dict_get request "description" (VStr "") = VStr d ->
  (0.7 <? confidence_threshold self)%float = true ->
  exists res,
    verify_milestone self env request = Ok res /\
    res !! "verdict" = Some (VStr "rejected") /\
    res !! "confidence"
    = Some (VFloat (if (50 <? String.length d)%nat then 0.62 else 0.5)).
Proof.
  intros Hq Hf Hd Ht. unfold verify_milestone, verify_milestone_stages. cbv zeta.
  rewrite Hd in *. unfold analyze_evidence. cbv zeta. rewrite Hq. cbn [bind try_except].
  rewrite (get_agent_verdict_mock self env _ _ (failed_analysis e) d 0.5 0.5 Hf eq_refl eq_refl).
  cbn [bind].
  change (combine_results self env _ ?av) with (combine_results self env (failed_analysis e) av).
  rewrite (combine_results_floats self env (failed_analysis e)
             (spec_mock_verdict (confidence_threshold self) d 0.5 0.5)
             0.5 0.5 0.5 (spec_mock_confidence d 0.5 0.5) eq_refl eq_refl eq_refl eq_refl).
  cbn [bind try_except]. eexists. split; [reflexivity | ]. cbv zeta.
  assert (Hconf : spec_mock_confidence d 0.5 0.5
                  = if (50 <? String.length d)%nat then 0.7%float else 0.5%float).
  { unfold spec_mock_confidence. cbv zeta.
    destruct (String.eqb_spec d "") as [-> | _]; cbn [negb andb]; [reflexivity | ].
    destruct (50 <? String.length d)%nat; reflexivity. }
  assert (Hno : float_ge (spec_mock_confidence d 0.5 0.5) (confidence_threshold self) = false).
  { rewrite Hconf. destruct (50 <? String.length d)%nat.
    - apply FloatFacts.float_ltb_not_ge. exact Ht.
    - unfold float_ge. destruct (confidence_threshold self <=? 0.5)%float eqn:E; [ | reflexivity].
      assert (H7 : (confidence_threshold self <=? 0.7)%float = true)
        by exact (OrderFacts.float_leb_trans _ 0.5 0.7 E eq_refl).
      apply FloatFacts.float_leb_not_lt in H7. rewrite H7 in Ht. discriminate Ht. }
  split.
  - change (Some (VStr (verdict_of (confidence_threshold self)
                          (combined_confidence_of (evidence_score_of 0.5 0.5 0.5)
                             (spec_mock_confidence d 0.5 0.5))
                          (float_ge (spec_mock_confidence d 0.5 0.5) (confidence_threshold self))))
            = Some (VStr "rejected")).
    rewrite Hno. unfold verdict_of. rewrite andb_false_r, orb_true_r. reflexivity.
  - change (Some (VFloat (combined_confidence_of (evidence_score_of 0.5 0.5 0.5)
                            (spec_mock_confidence d 0.5 0.5)))
            = Some (VFloat (if (50 <? String.length d)%nat then 0.62 else 0.5)%float)).
    rewrite Hconf. destruct (50 <? String.length d)%nat; reflexivity.
Qed.

Lemma degraded_mode_rejects_witness :
  exists res,
    verify_milestone (agent_with unreachable) keyed_env sample_request = Ok res /\
    res !! "verdict" = Some (VStr "rejected") /\
    res !! "confidence" = Some (VFloat 0.5).
Proof.
  assert (H : falls_back keyed_env).
  { right. right. intros url json headers timeout. eexists. reflexivity. }
  apply (degraded_mode_rejects (agent_with unreachable) keyed_env sample_request
           "Prototype delivered" (Exn "ConnectionError" "knowledge graph unreachable")
           eq_refl H eq_refl eq_refl).
Defined.

(** X17: with a credential, an answer of the verdict service that is a
    dictionary becomes the agent verdict field by field: approved,
    confidence, reasoning and recommendations are copied, a missing one
    takes its default (not approved, confidence 0.5) and every other key
    is dropped.  The values are not validated. *)
Theorem get_agent_verdict_remote_answer (self : MilestoneVerifierAgent) (env : Env)
    (milestone_id campaign_address description : value) (ea resp : dict) (ch : ascii)
    (key : string) :
  getenv env "ASI_API_KEY" = Some (String ch key) ->
  requests_post_json env
    (default "https://api.asi.one" (getenv env "ASI_ENDPOINT") ++ "/chat/agent")
    (agent_request self milestone_id campaign_address ea description)
    {[ "Authorization" := VStr ("Bearer " ++ String ch key);
       "Content-Type" := VStr "application/json";
       "X-API-Key" := VStr (String ch key);
       "User-Agent" := VStr "AutoCrowd-MilestoneVerifier/1.0" ]}
    120 = Ok (VDict resp) ->
  get_agent_verdict self env milestone_id campaign_address ea description
  = Ok ({[ "approved" := dict_get resp "approved" (VBool false);
           "confidence" := dict_get resp "confidence" (VFloat 0.5);
           "reasoning" := dict_get resp "reasoning" (VStr "Agent analysis completed");
           "recommendations" := dict_get resp "recommendations" (VList []) ]} : dict).
Proof.
  intros Hk Hp. unfold get_agent_verdict, call_asi_one_chat. cbv zeta.
  rewrite Hk, Hp. reflexivity.
Qed.

Lemma get_agent_verdict_remote_answer_witness :
  get_agent_verdict (agent_with unreachable) terse_env (VStr "m-1") (VStr "0xC0FFEE")
    (analysis 0.9 0.8 0.5) (VStr "Beta released")
  = Ok (verdict false 0.5).
Proof.
  rewrite (get_agent_verdict_remote_answer (agent_with unreachable) terse_env
             (VStr "m-1") (VStr "0xC0FFEE") (VStr "Beta released") (analysis 0.9 0.8 0.5) ∅
             "s"%char "ecret" eq_refl eq_refl).
  reflexivity.
Defined.

Lemma is_nan_true x : is_nan x = true -> Prim2SF x = S754_nan.
Proof.
  intros H. destruct (Prim2SF x) eqn:E; try reflexivity; exfalso;
    (assert (H' : is_nan x = false) by (apply RoundingFacts.is_nan_spec; rewrite E; discriminate));
    rewrite H in H'; discriminate H'.
Qed.

Lemma float_ge_nan x y : is_nan y = true -> float_ge x y = false.
Proof.
  intros H. unfold float_ge. rewrite FloatAxioms.leb_spec, (is_nan_true y H). reflexivity.
Qed.

Lemma float_ltb_one_sub_nan x y : is_nan y = true -> (x <? 1 - y)%float = false.
Proof.
  intros H. rewrite FloatAxioms.ltb_spec, FloatAxioms.sub_spec, (is_nan_true y H).
  destruct (Prim2SF x); reflexivity.
Qed.

(** A confidence below 0.8 does not reach a threshold of at least 0.8. *)
Lemma below_threshold (x threshold : float) :
  (0.8 <=? threshold)%float = true -> (0.8 <=? x)%float = false ->
  float_ge x threshold = false.
Proof.
  intros Ht Hx. unfold float_ge. destruct (threshold <=? x)%float eqn:E; [ | reflexivity].
  rewrite (OrderFacts.float_leb_trans _ _ _ Ht E) in Hx. discriminate Hx.
Qed.

(** With a threshold of at least 0.8 the mock generator does not approve
    a description of at most 50 characters, whatever the analysis holds. *)
Lemma mock_short_not_approved (self : MilestoneVerifierAgent) (request ctx res : dict)
    (d : string) :
  (0.8 <=? confidence_threshold self)%float = true ->
  dict_get request "context" (VDict ∅) = VDict ctx ->
  dict_get ctx "description" (VStr "") = VStr d ->
  (String.length d <= 50)%nat ->
  get_mock_agent_response self request = Ok res ->
  res !! "approved" = Some (VBool false).
Proof.
  intros Ht Hctx Hd Hlen. unfold get_mock_agent_response.
  rewrite Hctx. cbn [get bind]. rewrite Hd. cbn [truthy len bind].
  apply Nat.ltb_ge in Hlen. rewrite Hlen.
  replace (if negb (d =? "")%string then Ok false else Ok false) with (@Ok bool false)
    by (destruct (negb _); reflexivity).
  cbn [bind].
  repeat match goal with
         | |- context [bind ?m _] =>
             let E := fresh "E" in
             destruct m eqn:E; cbn [bind]; [ | discriminate]
         end.
  intros H. injection H as <-.
  change (({[ "approved" := ?a; "confidence" := ?b; "reasoning" := ?x; "recommendations" := ?y ]} : dict)
            !! "approved") with (Some a).
  do 2 f_equal. apply below_threshold; [exact Ht | ].
  repeat match goal with
         | b : bool |- _ => destruct b
         end; reflexivity.
Qed.

(** X18: in mock operation with a threshold of at least 0.8, the default
    included, a request whose description is a text of at most 50
    characters (or is missing) is never approved, whatever the knowledge
    service answers. *)
Theorem short_description_never_approved (self : MilestoneVerifierAgent) (env : Env)
    (request : dict) (d : string) :
  falls_back env ->
  (0.8 <=? confidence_threshold self)%float = true ->
  dict_get request "description" (VStr "") = VStr d ->
  (String.length d <= 50)%nat ->
  exists res v,
    verify_milestone self env request = Ok res /\
    res !! "verdict" = Some (VStr v) /\
    v <> "approved".
Proof.
  intros Hf Ht Hd Hlen. unfold verify_milestone, verify_milestone_stages. cbv zeta.
  rewrite Hd.
  destruct (analyze_evidence self _ _ _) as [ea | e0]; cbn [bind try_except];
    [ | eexists; eexists; split; [reflexivity | split; [reflexivity | discriminate]]].
  assert (Hav : exists av,
             get_agent_verdict self env (dict_get request "milestone_id" VNone)
               (dict_get request "campaign_address" VNone) ea (VStr d) = Ok av /\
             truthy (dict_get av "approved" (VBool false)) = false).
  { unfold get_agent_verdict. cbv zeta.
    rewrite (call_asi_one_chat_falls_back self env _ Hf).
    destruct (get_mock_agent_response self _) as [mv | e1] eqn:M; cbn [bind get try_except].
    - eexists. split; [reflexivity | ].
      pose proof (mock_short_not_approved self
                    (agent_request self (dict_get request "milestone_id" VNone)
                       (dict_get request "campaign_address" VNone) ea (VStr d))
                    {[ "milestone_id" := dict_get request "milestone_id" VNone;
                       "campaign_address" := dict_get request "campaign_address" VNone;
                       "description" := VStr d;
                       "evidence_analysis" := VDict ea ]}
                    mv d Ht eq_refl eq_refl Hlen M) as Ha.
      change (dict_get _ "approved" (VBool false)) with (dict_get mv "approved" (VBool false)).
      unfold dict_get. rewrite Ha. reflexivity.
    - eexists. split; reflexivity. }
  destruct Hav as (av & -> & Happ). cbn [bind].
  destruct (combine_results self env ea av) as [res | e2] eqn:C; cbn [bind try_except];
    [ | eexists; eexists; split; [reflexivity | split; [reflexivity | discriminate]]].
  destruct (combine_results_verdict self env ea av res C) as (x & Hv & _).
  eexists. eexists. split; [reflexivity | ]. split; [exact Hv | ].
  rewrite Happ. intros H. apply verdict_of_approved in H. destruct H as [_ H]. discriminate H.
Qed.

Lemma short_description_never_approved_witness :
  exists res v,
    verify_milestone (agent_with unreachable) local_env sample_request = Ok res /\
    res !! "verdict" = Some (VStr v) /\
    v <> "approved".
Proof.
  apply (short_description_never_approved (agent_with unreachable) local_env sample_request
           "Prototype delivered").
  - left. reflexivity.
  - reflexivity.
  - reflexivity.
  - vm_compute. lia.
Defined.

(** X19: the stages compose.  In mock operation, when the knowledge
    service answers with a dictionary whose three scores are floats (0.5
    standing for a missing one) and the description is a text, the result
    of [verify_milestone] carries the combined confidence of these scores
    and of the mock confidence, and the verdict decided from it and from
    the mock approval. *)
Theorem verify_milestone_mock_pipeline (self : MilestoneVerifierAgent) (env : Env)
    (request resp : dict) (d : string) (r c a : float) :
  falls_back env ->
  dict_get request "description" (VStr "") = VStr d ->
  metta_client_query self
    (evidence_query (dict_get request "evidence_hash" VNone)
       (dict_get request "evidence_url" VNone) (VStr d))
    "milestone_verification" = Ok (VDict resp) ->
  dict_get resp "relevance" (VFloat 0.5) = VFloat r ->
  dict_get resp "completeness" (VFloat 0.5) = VFloat c ->
  dict_get resp "authenticity" (VFloat 0.5) = VFloat a ->
  let threshold := confidence_threshold self in
  let mock_confidence := spec_mock_confidence d r c in
  let combined := combined_confidence_of (evidence_score_of r c a) mock_confidence in
  exists res,
    verify_milestone self env request = Ok res /\
    res !! "confidence" = Some (VFloat combined) /\
    res !! "verdict"
    = Some (VStr (verdict_of threshold combined (float_ge mock_confidence threshold))).
Proof.
  intros Hf Hd Hq Hr Hc Ha threshold mock_confidence combined.
  unfold verify_milestone, verify_milestone_stages. cbv zeta.
  rewrite Hd. unfold analyze_evidence. cbv zeta. rewrite Hq. cbn [bind get try_except].
  pose (ea := ({[ "relevance" := dict_get resp "relevance" (VFloat 0.5);
                  "completeness" := dict_get resp "completeness" (VFloat 0.5);
                  "authenticity" := dict_get resp "authenticity" (VFloat 0.5);
                  "reasoning" := dict_get resp "reasoning" (VStr "Evidence analysis completed");
                  "metadata" := dict_get resp "metadata" (VDict ∅) ]} : dict)).
  assert (Er : dict_get ea "relevance" (VFloat 0.5) = VFloat r) by exact Hr.
  assert (Ec : dict_get ea "completeness" (VFloat 0.5) = VFloat c) by exact Hc.
  assert (Ea : dict_get ea "authenticity" (VFloat 0.5) = VFloat a) by exact Ha.
  change (get_agent_verdict self env ?m ?ca _ (VStr d))
    with (get_agent_verdict self env m ca ea (VStr d)).
  rewrite (get_agent_verdict_mock self env _ _ ea d r c Hf Er Ec). cbn [bind].
  change (combine_results self env _ ?av) with (combine_results self env ea av).
  rewrite (combine_results_floats self env ea
             (spec_mock_verdict (confidence_threshold self) d r c) r c a
             (spec_mock_confidence d r c) Er Ec Ea eq_refl).
  cbn [bind try_except]. eexists. split; [reflexivity | ]. split; reflexivity.
Qed.

Lemma verify_milestone_mock_pipeline_witness :
  exists res,
    verify_milestone (agent_with (fun _ _ => Ok (VDict (analysis 0.9 0.8 0.5)))) local_env
      sample_request = Ok res /\
    res !! "confidence"
    = Some (VFloat (combined_confidence_of (evidence_score_of 0.9 0.8 0.5)
                      (spec_mock_confidence "Prototype delivered" 0.9 0.8))) /\
    res !! "verdict"
    = Some (VStr (verdict_of 0.8
                    (combined_confidence_of (evidence_score_of 0.9 0.8 0.5)
                       (spec_mock_confidence "Prototype delivered" 0.9 0.8))
                    (float_ge (spec_mock_confidence "Prototype delivered" 0.9 0.8) 0.8))).
Proof.
  apply (verify_milestone_mock_pipeline
           (agent_with (fun _ _ => Ok (VDict (analysis 0.9 0.8 0.5)))) local_env
           sample_request (analysis 0.9 0.8 0.5) "Prototype delivered" 0.9 0.8 0.5);
    try reflexivity.
  left. reflexivity.
Defined.

(** X20: a threshold that is not a number approves nothing.  When the
    configured threshold is a NaN, [combine_results] never returns
    "approved": its verdict is "uncertain" when the agent approves and
    "rejected" otherwise, whatever the scores. *)
Theorem nan_threshold_never_approves (self : MilestoneVerifierAgent) (env : Env)
    (ea av res : dict) :
  is_nan (confidence_threshold self) = true ->
  combine_results self env ea av = Ok res ->
  res !! "verdict"
  = Some (VStr (if truthy (dict_get av "approved" (VBool false))
                then "uncertain" else "rejected")).
Proof.
  intros Hn H. destruct (combine_results_verdict self env ea av res H) as (x & Hv & _).
  rewrite Hv. unfold verdict_of.
  rewrite (float_ge_nan x _ Hn), (float_ltb_one_sub_nan x _ Hn).
  destruct (truthy _); reflexivity.
Qed.

Lemma nan_threshold_never_approves_witness :
  combine_results (agent nan unreachable) local_env (analysis 1.0 1.0 1.0) (verdict true 1.0)
  = Ok ({[ "verdict" := VStr "uncertain";
           "confidence" := VFloat 1.0;
           "reasoning" := VStr "Evidence analysis completed. Agent analysis completed";
           "details" :=
             VDict {[ "evidence_analysis" := VDict (analysis 1.0 1.0 1.0);
                      "agent_verdict" := VDict (verdict true 1.0);
                      "combined_score" := VFloat 1.0 ]} ]} : dict) /\
  ({[ "verdict" := VStr "uncertain";
      "confidence" := VFloat 1.0;
      "reasoning" := VStr "Evidence analysis completed. Agent analysis completed";
      "details" :=
        VDict {[ "evidence_analysis" := VDict (analysis 1.0 1.0 1.0);
                 "agent_verdict" := VDict (verdict true 1.0);
                 "combined_score" := VFloat 1.0 ]} ]} : dict) !! "verdict"
  = Some (VStr "uncertain").
Proof.
  split; [reflexivity | ].
  apply (nan_threshold_never_approves (agent nan unreachable) local_env
           (analysis 1.0 1.0 1.0) (verdict true 1.0)); reflexivity.
Defined.
